(** * CocoMUD: the game engine (game.py)

    A shallow embedding of [GameEngine] and of the [Level] enumeration of
    game.py, with the properties of the engine registry and of the session
    wiring proved over it.

    Python objects that are shared by reference (worlds, clients, script
    engines, the loggers of the logging module) live in stores and are
    named by references; a method of the engine is a computation over the
    whole process state that either returns or raises. *)

From stdpp Require Import base option list gmap strings pretty.

Open Scope string_scope.
Open Scope list_scope.
Open Scope Z_scope.

(** ** Exceptions and results *)

Inductive Exn :=
  | KeyError (key : string)
  | OSError (what : string)
  | Error (what : string).

Inductive result (A : Type) :=
  | Ok (a : A)
  | Raise (e : Exn).
Arguments Ok {A} a.
Arguments Raise {A} e.

(** ** Level (game.py, class Level) *)

Module Level.

Inductive t := engine | world | character | category.

(** The integer each member of the enumeration is bound to. *)
Definition value (l : t) : Z :=
  match l with
  | engine => 1
  | world => 2
  | character => 3
  | category => 4
  end.

End Level.

(** ** The logging module, as far as the engine uses it *)

Module logging.

Definition NOTSET : Z := 0.
Definition DEBUG : Z := 10.
Definition INFO : Z := 20.

(** [CustomFormatter(fmt)]: the formatter keeps its format string; the
    hour and the minute are filled in when a record is rendered. *)
Inductive Formatter := CustomFormatter (fmt : string).

Inductive HandlerKind :=
  | StreamHandler
  | FileHandler (filename encoding : string).

Record Handler := {
  h_kind : HandlerKind;
  h_level : Z;
  h_formatter : option Formatter }.

Definition Handler_setLevel (lvl : Z) (h : Handler) : Handler :=
  {| h_kind := h_kind h; h_level := lvl; h_formatter := h_formatter h |}.

Definition Handler_setFormatter (f : Formatter) (h : Handler) : Handler :=
  {| h_kind := h_kind h; h_level := h_level h; h_formatter := Some f |}.

Record Logger := {
  lg_level : Z;
  lg_handlers : list Handler }.

Definition Logger_setLevel (lvl : Z) (l : Logger) : Logger :=
  {| lg_level := lvl; lg_handlers := lg_handlers l |}.

(** [addHandler] appends: a handler object that was just built is never
    already in the list. *)
Definition Logger_addHandler (h : Handler) (l : Logger) : Logger :=
  {| lg_level := lg_level l; lg_handlers := lg_handlers l ++ [h] |}.

(** A call of [logger.debug] or [logger.info]. *)
Record LogRecord := {
  r_name : string;
  r_levelno : Z;
  r_msg : string }.

End logging.
Import logging.

(** ** Settings (the module config) *)

Inductive Value :=
  | VBool (b : bool)
  | VInt (z : Z)
  | VStr (s : string).

(** Modelled from the spec: the class [Settings] of the module config,
    which game.py imports.  The store is a stack of four override layers
    keyed by [Level.t], and a table of declared defaults. *)
Record Settings := {
  layers : Level.t → gmap string Value;
  defaults : gmap string Value }.

(** Modelled from the spec: the order in which [Settings.__getitem__]
    walks the layers, from the most specific to the most general. *)
Definition precedence : list Level.t :=
  [Level.category; Level.character; Level.world; Level.engine].

(** Modelled from the spec: the first layer of [ls] that defines [key]. *)
Fixpoint resolve (ls : list Level.t) (st : Settings) (key : string)
    : option Value :=
  match ls with
  | [] => None
  | l :: ls' =>
      match layers st l !! key with
      | Some v => Some v
      | None => resolve ls' st key
      end
  end.

(** Modelled from the spec: [Settings.__getitem__], the [get(key)] of the
    settings store: the most specific layer that defines the key, else the
    declared default, else a KeyError. *)
Definition Settings_get (st : Settings) (key : string) : result Value :=
  match resolve precedence st key with
  | Some v => Ok v
  | None =>
      match defaults st !! key with
      | Some v => Ok v
      | None => Raise (KeyError key)
      end
  end.

(** ** Objects *)

(** A world, with the three attributes the engine assigns. *)
Record World := {
  w_name : string;
  w_engine : option nat;
  w_client : option nat;
  w_sharp_engine : option nat }.

(** A client as [GUIClient(host, port, engine=self, world=world)] leaves
    it, and the attribute [sharp_engine] that [open] assigns. *)
Record Client := {
  c_host : string;
  c_port : Z;
  c_engine : nat;
  c_world : nat;
  c_sharp_engine : option nat }.

(** A script engine as [SharpScript(engine, client, world)] leaves it. *)
Record SharpScript := {
  s_engine : nat;
  s_client : nat;
  s_world : nat }.

(** The attributes of a [GameEngine].  A logger is referred to by its
    name in the logging module; a world by its place in the store. *)
Record GameEngine := {
  self_id : nat;
  loggers : gmap string string;
  logger : string;
  settings : Settings;
  worlds : gmap string nat;
  default_world : option nat;
  level : Level.t;
  TTS_on : option Value;
  TTS_outside : option Value }.

(** The state of the process: the engine, the stores of the objects it
    shares with its collaborators, the loggers of the logging module, the
    paths that exist on disk, and what has been logged and opened. *)
Record State := {
  engine : GameEngine;
  manager : gmap string Logger;
  fs : gset string;
  world_store : list World;
  client_store : list Client;
  sharp_store : list SharpScript;
  log_calls : list LogRecord;
  started : list string }.

(** ** Collaborators

    What game.py calls and does not define: the path functions of os, the
    file system, the constructors of [GUIClient], [SharpScript] and
    [Settings], and the methods of [Settings] that read the disk.  A
    constructor either raises or builds its object; neither assigns the
    attributes [client] and [sharp_engine] of the world it is given. *)
Class Collaborators := {
  os_path_join : string → string → string;
  os_mkdir_error : State → string → option Exn;
  FileHandler_error : State → string → option Exn;
  os_startfile_error : State → string → option Exn;
  Settings_new : nat → Settings;
  Settings_load : Settings → result unit * Settings;
  Settings_get_language : Settings → result string;
  GUIClient_error : State → string → Z → nat → option Exn;
  SharpScript_error : State → nat → nat → option Exn }.

(** ** Computations that read and write the state and may raise *)

Definition M (A : Type) : Type := State → result A * State.

#[global] Instance M_ret : MRet M := λ A a s, (Ok a, s).

#[global] Instance M_bind : MBind M := λ A B f m s,
  match m s with
  | (Ok a, s') => f a s'
  | (Raise e, s') => (Raise e, s')
  end.

Definition raise {A} (e : Exn) : M A := λ s, (Raise e, s).
Definition get_state : M State := λ s, (Ok s, s).
Definition get_self : M GameEngine := λ s, (Ok (engine s), s).
Definition modify (f : State → State) : M unit := λ s, (Ok (), f s).
Definition lift {A} (r : result A) : M A := λ s, (r, s).

Fixpoint for_each {A} (l : list A) (body : A → M unit) : M unit :=
  match l with
  | [] => mret ()
  | x :: l' => body x;; for_each l' body
  end.

(** ** Assignments *)

Definition with_engine (f : GameEngine → GameEngine) (s : State) : State :=
  {| engine := f (engine s); manager := manager s; fs := fs s;
     world_store := world_store s; client_store := client_store s;
     sharp_store := sharp_store s; log_calls := log_calls s;
     started := started s |}.

Definition with_manager (f : gmap string Logger → gmap string Logger)
    (s : State) : State :=
  {| engine := engine s; manager := f (manager s); fs := fs s;
     world_store := world_store s; client_store := client_store s;
     sharp_store := sharp_store s; log_calls := log_calls s;
     started := started s |}.

Definition with_fs (f : gset string → gset string) (s : State) : State :=
  {| engine := engine s; manager := manager s; fs := f (fs s);
     world_store := world_store s; client_store := client_store s;
     sharp_store := sharp_store s; log_calls := log_calls s;
     started := started s |}.

Definition with_world_store (f : list World → list World) (s : State)
    : State :=
  {| engine := engine s; manager := manager s; fs := fs s;
     world_store := f (world_store s); client_store := client_store s;
     sharp_store := sharp_store s; log_calls := log_calls s;
     started := started s |}.

Definition with_client_store (f : list Client → list Client) (s : State)
    : State :=
  {| engine := engine s; manager := manager s; fs := fs s;
     world_store := world_store s; client_store := f (client_store s);
     sharp_store := sharp_store s; log_calls := log_calls s;
     started := started s |}.

Definition with_sharp_store (f : list SharpScript → list SharpScript)
    (s : State) : State :=
  {| engine := engine s; manager := manager s; fs := fs s;
     world_store := world_store s; client_store := client_store s;
     sharp_store := f (sharp_store s); log_calls := log_calls s;
     started := started s |}.

Definition with_log_calls (f : list LogRecord → list LogRecord) (s : State)
    : State :=
  {| engine := engine s; manager := manager s; fs := fs s;
     world_store := world_store s; client_store := client_store s;
     sharp_store := sharp_store s; log_calls := f (log_calls s);
     started := started s |}.

Definition with_started (f : list string → list string) (s : State) : State :=
  {| engine := engine s; manager := manager s; fs := fs s;
     world_store := world_store s; client_store := client_store s;
     sharp_store := sharp_store s; log_calls := log_calls s;
     started := f (started s) |}.

(** [self.loggers = d] *)
Definition assign_loggers (d : gmap string string) (e : GameEngine)
    : GameEngine :=
  {| self_id := self_id e; loggers := d;
     logger := logger e; settings := settings e; worlds := worlds e;
     default_world := default_world e; level := level e;
     TTS_on := TTS_on e; TTS_outside := TTS_outside e |}.

(** [self.loggers[name] = lg] *)
Definition setitem_loggers (name lg : string) (e : GameEngine) : GameEngine :=
  assign_loggers (<[name := lg]> (loggers e)) e.

(** [self.logger = lg] *)
Definition assign_logger (lg : string) (e : GameEngine) : GameEngine :=
  {| self_id := self_id e; loggers := loggers e;
     logger := lg; settings := settings e; worlds := worlds e;
     default_world := default_world e; level := level e;
     TTS_on := TTS_on e; TTS_outside := TTS_outside e |}.

(** [self.settings = st] *)
Definition assign_settings (st : Settings) (e : GameEngine) : GameEngine :=
  {| self_id := self_id e; loggers := loggers e;
     logger := logger e; settings := st; worlds := worlds e;
     default_world := default_world e; level := level e;
     TTS_on := TTS_on e; TTS_outside := TTS_outside e |}.

(** [self.worlds = ws] *)
Definition assign_worlds (ws : gmap string nat) (e : GameEngine)
    : GameEngine :=
  {| self_id := self_id e; loggers := loggers e;
     logger := logger e; settings := settings e; worlds := ws;
     default_world := default_world e; level := level e;
     TTS_on := TTS_on e; TTS_outside := TTS_outside e |}.

(** [self.default_world = w] *)
Definition assign_default_world (w : option nat) (e : GameEngine)
    : GameEngine :=
  {| self_id := self_id e; loggers := loggers e;
     logger := logger e; settings := settings e; worlds := worlds e;
     default_world := w; level := level e;
     TTS_on := TTS_on e; TTS_outside := TTS_outside e |}.

(** [self.level = l] *)
Definition assign_level (l : Level.t) (e : GameEngine) : GameEngine :=
  {| self_id := self_id e; loggers := loggers e;
     logger := logger e; settings := settings e; worlds := worlds e;
     default_world := default_world e; level := l;
     TTS_on := TTS_on e; TTS_outside := TTS_outside e |}.

(** [self.TTS_on = v] *)
Definition assign_TTS_on (v : Value) (e : GameEngine) : GameEngine :=
  {| self_id := self_id e; loggers := loggers e;
     logger := logger e; settings := settings e; worlds := worlds e;
     default_world := default_world e; level := level e;
     TTS_on := Some v; TTS_outside := TTS_outside e |}.

(** [self.TTS_outside = v] *)
Definition assign_TTS_outside (v : Value) (e : GameEngine) : GameEngine :=
  {| self_id := self_id e; loggers := loggers e;
     logger := logger e; settings := settings e; worlds := worlds e;
     default_world := default_world e; level := level e;
     TTS_on := TTS_on e; TTS_outside := Some v |}.

(** [world.engine = e] *)
Definition assign_w_engine (e : nat) (w : World) : World :=
  {| w_name := w_name w; w_engine := Some e; w_client := w_client w;
     w_sharp_engine := w_sharp_engine w |}.

(** [world.client = c] *)
Definition assign_w_client (c : nat) (w : World) : World :=
  {| w_name := w_name w; w_engine := w_engine w; w_client := Some c;
     w_sharp_engine := w_sharp_engine w |}.

(** [world.sharp_engine = sh] *)
Definition assign_w_sharp_engine (sh : nat) (w : World) : World :=
  {| w_name := w_name w; w_engine := w_engine w; w_client := w_client w;
     w_sharp_engine := Some sh |}.

(** [client.sharp_engine = sh] *)
Definition assign_c_sharp_engine (sh : nat) (c : Client) : Client :=
  {| c_host := c_host c; c_port := c_port c; c_engine := c_engine c;
     c_world := c_world c; c_sharp_engine := Some sh |}.

(** ** Python idioms *)

(** [not name], for a string. *)
Definition py_not (s : string) : bool := bool_decide (s = "").

(** [filename or default], for a string that may be None. *)
Definition py_or (filename : option string) (default : string) : string :=
  match filename with
  | None => default
  | Some f => if py_not f then default else f
  end.

(** [d.values()] *)
Definition values {V} (d : gmap string V) : list V := (map_to_list d).*2.

Section GameEngine.

Context `{Collaborators}.

(** *** What the engine asks of the outside *)

Definition os_path_exists (path : string) : M bool :=
  s ← get_state; mret (bool_decide (path ∈ fs s)).

Definition os_mkdir (path : string) : M unit :=
  s ← get_state;
  match os_mkdir_error s path with
  | Some e => raise e
  | None => modify (with_fs (λ paths, paths ∪ {[path]}))
  end.

Definition os_startfile (path : string) : M unit :=
  s ← get_state;
  match os_startfile_error s path with
  | Some e => raise e
  | None => modify (with_started (λ l, l ++ [path]))
  end.

(** [logging.getLogger(name)]: the logger of that name, made on first
    demand with no level and no handler. *)
Definition getLogger (name : string) : M string :=
  s ← get_state;
  match manager s !! name with
  | Some _ => mret name
  | None =>
      modify (with_manager
                (insert name {| lg_level := NOTSET; lg_handlers := [] |}));;
      mret name
  end.

Definition setLevel (lg : string) (lvl : Z) : M unit :=
  modify (with_manager (alter (Logger_setLevel lvl) lg)).

Definition addHandler (lg : string) (h : Handler) : M unit :=
  modify (with_manager (alter (Logger_addHandler h) lg)).

(** [logging.StreamHandler()] *)
Definition new_StreamHandler : M Handler :=
  mret {| h_kind := StreamHandler; h_level := NOTSET; h_formatter := None |}.

(** [logging.FileHandler(filename, encoding=...)] opens the file, which
    creates it, or raises. *)
Definition new_FileHandler (filename encoding : string) : M Handler :=
  s ← get_state;
  match FileHandler_error s filename with
  | Some e => raise e
  | None =>
      modify (with_fs (λ paths, paths ∪ {[filename]}));;
      mret {| h_kind := FileHandler filename encoding; h_level := NOTSET;
              h_formatter := None |}
  end.

Definition log (lg : string) (levelno : Z) (msg : string) : M unit :=
  modify (with_log_calls (λ l, l ++
    [{| r_name := lg; r_levelno := levelno; r_msg := msg |}])).

Definition info (lg msg : string) : M unit := log lg INFO msg.
Definition debug (lg msg : string) : M unit := log lg DEBUG msg.

(** [GUIClient(host, port, engine=engine, world=world)] *)
Definition GUIClient (host : string) (port : Z) (eng world : nat) : M nat :=
  s ← get_state;
  match GUIClient_error s host port world with
  | Some e => raise e
  | None =>
      modify (with_client_store (λ l, l ++
        [{| c_host := host; c_port := port; c_engine := eng;
            c_world := world; c_sharp_engine := None |}]));;
      mret (length (client_store s))
  end.

(** [SharpScript(engine, client, world)] *)
Definition new_SharpScript (eng client world : nat) : M nat :=
  s ← get_state;
  match SharpScript_error s client world with
  | Some e => raise e
  | None =>
      modify (with_sharp_store (λ l, l ++
        [{| s_engine := eng; s_client := client; s_world := world |}]));;
      mret (length (sharp_store s))
  end.

(** *** GameEngine.create_logger *)

Definition physical_name (name : string) : string :=
  if py_not name then "cocomud" else "cocomud." +:+ name.

Definition log_file (name : string) (filename : option string) : string :=
  if py_not name then os_path_join "logs" "main.log"
  else py_or filename (os_path_join "logs" (name +:+ ".log")).

Definition create_logger (name : string) (filename : option string)
    : M string :=
  let filename := log_file name filename in
  let name := physical_name name in
  self ← get_self;
  match loggers self !! name with
  | Some lg => mret lg
  | None =>
      logger ← getLogger name;
      setLevel logger DEBUG;;
      let formatter :=
        CustomFormatter
          "%(hour)02d:%(minute)02d [%(levelname)s] %(message)s" in
      (if bool_decide (name = "cocomud") then
         handler ← new_StreamHandler;
         let handler := Handler_setLevel INFO handler in
         addHandler logger handler
       else mret ());;
      handler ← new_FileHandler filename "utf-8";
      let handler := Handler_setLevel DEBUG handler in
      let handler := Handler_setFormatter formatter handler in
      addHandler logger handler;;
      modify (with_engine (setitem_loggers name logger));;
      mret logger
  end.

(** *** GameEngine.__init__ *)

(** The engine before [__init__] has assigned anything: an attribute
    holds a placeholder until its assignment, and nothing reads it
    before. *)
Definition blank (id : nat) : GameEngine :=
  {| self_id := id; loggers := ∅; logger := "";
     settings := {| layers := λ _, ∅; defaults := ∅ |};
     worlds := ∅; default_world := None; level := Level.engine;
     TTS_on := None; TTS_outside := None |}.

Definition init (id : nat) : M unit :=
  modify (with_engine (λ _, blank id));;
  b ← os_path_exists "logs";
  (if negb b then os_mkdir "logs" else mret ());;
  modify (with_engine (assign_loggers ∅));;
  lg ← create_logger "" None;
  modify (with_engine (assign_logger lg));;
  self ← get_self;
  modify (with_engine (assign_settings (Settings_new (self_id self))));;
  modify (with_engine (assign_worlds ∅));;
  modify (with_engine (assign_default_world None));;
  modify (with_engine (assign_level Level.engine));;
  self ← get_self;
  info (logger self) "CocoMUD engine started".

(** *** GameEngine.load *)

(** [self.settings.load()] works on the settings object in place. *)
Definition settings_load : M unit := λ s,
  let '(r, st) := Settings_load (settings (engine s)) in
  (r, with_engine (assign_settings st) s).

(** [self.settings[key]] *)
Definition settings_getitem (key : string) : M Value :=
  self ← get_self; lift (Settings_get (settings self) key).

(** [world.engine = e], on the world object that [world] refers to. *)
Definition set_world_engine (world e : nat) : M unit :=
  modify (with_world_store (alter (assign_w_engine e) world)).

Definition load : M unit :=
  self ← get_self;
  info (logger self) "Loading the user's configuration...";;
  settings_load;;
  v ← settings_getitem "options.TTS.on";
  modify (with_engine (assign_TTS_on v));;
  v ← settings_getitem "options.TTS.outside";
  modify (with_engine (assign_TTS_outside v));;
  self ← get_self;
  for_each (values (worlds self))
    (λ world, set_world_engine world (self_id self)).

(** *** GameEngine.open *)

Definition set_world_client (world client : nat) : M unit :=
  modify (with_world_store (alter (assign_w_client client) world)).

Definition set_client_sharp_engine (client sharp_engine : nat) : M unit :=
  modify (with_client_store (alter (assign_c_sharp_engine sharp_engine)
                               client)).

Definition set_world_sharp_engine (world sharp_engine : nat) : M unit :=
  modify (with_world_store (alter (assign_w_sharp_engine sharp_engine)
                              world)).

Definition open (host : string) (port : Z) (world : nat) : M nat :=
  self ← get_self;
  info (logger self)
    ("Creating a client for " +:+ host +:+ ":" +:+ pretty port);;
  client ← GUIClient host port (self_id self) world;
  sharp_engine ← new_SharpScript (self_id self) client world;
  set_world_client world client;;
  set_client_sharp_engine client sharp_engine;;
  set_world_sharp_engine world sharp_engine;;
  mret client.

(** *** GameEngine.open_help *)

(** The help file of [name] in the language [lang]. *)
Definition help_path (lang name : string) : string :=
  os_path_join (os_path_join "doc" lang) (name +:+ ".html").

Definition open_help (name : string) : M unit :=
  self ← get_self;
  lang ← lift (Settings_get_language (settings self));
  let filename := name +:+ ".html" in
  let path := os_path_join (os_path_join "doc" lang) filename in
  b ← os_path_exists path;
  if (b : bool) then
    debug (logger self)
      ("Open the help file for " +:+ name +:+ " (lang=" +:+ lang +:+ ")");;
    os_startfile path
  else
    (* Try English *)
    let path := os_path_join (os_path_join "doc" "en") filename in
    b ← os_path_exists path;
    if (b : bool) then
      debug (logger self)
        ("Open the help file for " +:+ name +:+ " (lang=en)");;
      os_startfile path
    else
      (* Neither worked *)
      debug (logger self)
        ("The documentation for the " +:+ name +:+ " help file " +:+
         "cannot be found, either using lang=" +:+ lang +:+ " or lang=en").

End GameEngine.

(** ** Vocabulary of the properties *)

(** The handlers attached to the logger [lg], none when the logging
    module has no such logger. *)
Definition sinks (s : State) (lg : string) : list Handler :=
  match manager s !! lg with
  | Some l => lg_handlers l
  | None => []
  end.

(** The handler [create_logger] attaches for the console. *)
Definition console_sink : Handler :=
  {| h_kind := StreamHandler; h_level := INFO; h_formatter := None |}.

(** The handler [create_logger] attaches for the file [filename]. *)
Definition file_sink (filename : string) : Handler :=
  {| h_kind := FileHandler filename "utf-8"; h_level := DEBUG;
     h_formatter := Some (CustomFormatter
       "%(hour)02d:%(minute)02d [%(levelname)s] %(message)s") |}.

(** The state in which [open] calls the constructors: the one it was
    called in, with its intent logged on [self.logger]. *)
Definition announced (host : string) (port : Z) (s : State) : State :=
  (info (logger (engine s))
     ("Creating a client for " +:+ host +:+ ":" +:+ pretty port) s).2.

(** The world store after [world.engine = id] for each [world] of [ws]
    in turn. *)
Definition engine_assigned (id : nat) (ws : list nat) (st : list World)
    : list World :=
  foldl (λ st w, alter (assign_w_engine id) w st) st ws.

(** ** A concrete setting, to run the engine on *)

Module Demo.

Definition demo_settings : Settings :=
  {| layers := λ l,
       match l with
       | Level.engine => {[ "options.TTS.on" := VBool true;
                            "options.language" := VStr "en" ]}
       | Level.world => {[ "options.TTS.on" := VBool false ]}
       | Level.character => {[ "options.language" := VStr "fr" ]}
       | Level.category => ∅
       end;
     defaults := {[ "options.TTS.outside" := VBool true;
                    "options.TTS.on" := VBool true ]} |}.

(** Paths joined with a slash; no file system error; a client needs a
    host; the script engine of the world 1 does not start. *)
Definition collaborators : Collaborators :=
  {| os_path_join := λ a b, a +:+ "/" +:+ b;
     os_mkdir_error := λ _ _, None;
     FileHandler_error := λ _ _, None;
     os_startfile_error := λ _ _, None;
     Settings_new := λ _, {| layers := λ _, ∅; defaults := ∅ |};
     Settings_load := λ _, (Ok (), demo_settings);
     Settings_get_language := λ st,
       match Settings_get st "options.language" with
       | Ok (VStr lang) => Ok lang
       | _ => Ok "en"
       end;
     GUIClient_error := λ _ host _ _,
       if py_not host then Some (OSError "no host") else None;
     SharpScript_error := λ _ _ world,
       if bool_decide (world = 1%nat) then Some (Error "script")
       else None |}.

Definition unopened (name : string) : World :=
  {| w_name := name; w_engine := None; w_client := None;
     w_sharp_engine := None |}.

(** A process with three worlds made and nothing else. *)
Definition boot : State :=
  {| engine := blank 0; manager := ∅; fs := ∅;
     world_store := [unopened "w1"; unopened "w2"; unopened "w3"];
     client_store := []; sharp_store := [];
     log_calls := []; started := [] |}.

(** The same process after [GameEngine()], with the worlds known to
    the engine, and the English help of the macros on disk. *)
Definition known (s : State) : State :=
  with_fs (λ paths, paths ∪ {[ "doc/en/macros.html" ]})
    (with_engine
       (assign_worlds {[ "w1" := 0%nat; "w2" := 1%nat; "w3" := 2%nat ]}) s).

Definition started_state : State :=
  known (@init collaborators 7 boot).2.

(** After [load()]. *)
Definition loaded : State := (@load collaborators started_state).2.

(** After [open("mud.example.org", 4000, w1)]. *)
Definition opened : State :=
  (@open collaborators "mud.example.org" 4000 0 loaded).2.

(** After [create_logger("sharp", "x.log")]. *)
Definition with_sharp : State :=
  (@create_logger collaborators "sharp" (Some "x.log") started_state).2.

(** An engine object on which [__init__] has yet to run. *)
Definition unstarted : State := with_engine (λ _, blank 7) boot.

(** The same collaborators, with a settings file that declares nothing. *)
Definition undeclared : Collaborators :=
  {| os_path_join := @os_path_join collaborators;
     os_mkdir_error := @os_mkdir_error collaborators;
     FileHandler_error := @FileHandler_error collaborators;
     os_startfile_error := @os_startfile_error collaborators;
     Settings_new := @Settings_new collaborators;
     Settings_load := λ st, (Ok (), st);
     Settings_get_language := @Settings_get_language collaborators;
     GUIClient_error := @GUIClient_error collaborators;
     SharpScript_error := @SharpScript_error collaborators |}.

End Demo.

(** ** The engine as its callers drive it *)

Section Calls.

Context `{Collaborators}.

(** The handlers that a call of [create_logger] which builds the channel
    attaches, in order: for the root the console one, then the file one. *)
Definition new_sinks (n : string) (f : option string) : list Handler :=
  (if py_not n then [console_sink] else []) ++ [file_sink (log_file n f)].

(** The logging module once [getLogger(name)] has been called. *)
Definition known_logger (name : string) (m : gmap string Logger)
    : gmap string Logger :=
  match m !! name with
  | Some _ => m
  | None => <[name := {| lg_level := NOTSET; lg_handlers := [] |}]> m
  end.

(** The state in which a building [create_logger] opens its file: the
    logger exists, is at level debug, and for the root has its console
    handler. *)
Definition prepared (n : string) (s : State) : State :=
  with_manager (λ m,
    (if py_not n
     then alter (Logger_addHandler console_sink) (physical_name n)
     else λ m', m')
      (alter (Logger_setLevel DEBUG) (physical_name n)
         (known_logger (physical_name n) m))) s.

(** The state a building [create_logger] returns in. *)
Definition built (n : string) (f : option string) (s : State) : State :=
  with_engine (setitem_loggers (physical_name n) (physical_name n))
    (with_manager
       (alter (Logger_addHandler (file_sink (log_file n f)))
          (physical_name n))
       (with_fs (λ paths, paths ∪ {[log_file n f]}) (prepared n s))).

(** A call of a method of the engine. *)
Inductive Call :=
  | CreateLogger (name : string) (filename : option string)
  | Load
  | Open (host : string) (port : Z) (world : nat)
  | OpenHelp (name : string).

(** The state a call leaves, whether it returns or raises. *)
Definition after (c : Call) (s : State) : State :=
  match c with
  | CreateLogger name filename => (create_logger name filename s).2
  | Load => (load s).2
  | Open host port world => (open host port world s).2
  | OpenHelp name => (open_help name s).2
  end.

(** The state a sequence of calls leaves, a caller going on to the next
    call when one raises. *)
Definition after_all (cs : list Call) (s : State) : State :=
  foldl (λ s c, after c s) s cs.

End Calls.

(** Every name of [self.loggers] is bound to the logger of that name; the
    logging module has it, at level debug, with a file handler last. *)
Definition cache_ok (s : State) : Prop :=
  ∀ k lg, loggers (engine s) !! k = Some lg →
    lg = k ∧
    ∃ L f hs, manager s !! k = Some L ∧ lg_level L = DEBUG ∧
              lg_handlers L = hs ++ [file_sink f].

(** A world is unopened, or its client and its script engine are set and
    refer to each other and to the world. *)
Definition wired_ok (s : State) : Prop :=
  ∀ w o, world_store s !! w = Some o →
    (w_client o = None ∧ w_sharp_engine o = None) ∨
    ∃ c sh co so,
      w_client o = Some c ∧ w_sharp_engine o = Some sh ∧
      client_store s !! c = Some co ∧ c_sharp_engine co = Some sh ∧
      c_world co = w ∧
      sharp_store s !! sh = Some so ∧ s_client so = c ∧ s_world so = w.

(** ** Collaborators that fail *)

Module Faults.

(** A log file opens only when the directory "logs" exists, and the
    directory cannot be made. *)
Definition needs_dir : Collaborators :=
  {| os_path_join := @os_path_join Demo.collaborators;
     os_mkdir_error := λ _ path, Some (OSError path);
     FileHandler_error := λ s path,
       if bool_decide ("logs" ∈ fs s) then None else Some (OSError path);
     os_startfile_error := @os_startfile_error Demo.collaborators;
     Settings_new := @Settings_new Demo.collaborators;
     Settings_load := @Settings_load Demo.collaborators;
     Settings_get_language := @Settings_get_language Demo.collaborators;
     GUIClient_error := @GUIClient_error Demo.collaborators;
     SharpScript_error := @SharpScript_error Demo.collaborators |}.

(** The settings cannot be read, the language is an error when it is not
    set, and no program opens an HTML file. *)
Definition unreadable : Collaborators :=
  {| os_path_join := @os_path_join Demo.collaborators;
     os_mkdir_error := @os_mkdir_error Demo.collaborators;
     FileHandler_error := @FileHandler_error Demo.collaborators;
     os_startfile_error := λ _ path, Some (OSError path);
     Settings_new := @Settings_new Demo.collaborators;
     Settings_load := λ st, (Raise (OSError "settings"), st);
     Settings_get_language := λ st,
       match Settings_get st "options.language" with
       | Ok (VStr lang) => Ok lang
       | Ok _ => Ok "en"
       | Raise e => Raise e
       end;
     GUIClient_error := @GUIClient_error Demo.collaborators;
     SharpScript_error := @SharpScript_error Demo.collaborators |}.

(** The state after a first [create_logger("")] that could not open its
    file, and the same once the directory has been made by hand. *)
Definition failed_once : State :=
  (@create_logger needs_dir "" None Demo.unstarted).2.

Definition dir_made : State :=
  with_fs (λ paths, paths ∪ {[ "logs" ]}) failed_once.

(** The engine with its root channel, as [__init__] has it once
    [create_logger("")] has returned. *)
Definition rooted : State :=
  (@create_logger Demo.collaborators "" None Demo.unstarted).2.

(** The loaded engine of [Demo], with the French page of the macros. *)
Definition with_french : State :=
  with_fs (λ paths, paths ∪ {[ "doc/fr/macros.html" ]}) Demo.loaded.

End Faults.

(** * The updater window (updater.py)

    The frames of updater.py, their events and the handlers bound to
    them.  The values that go through the events are the Python values
    the methods are given; what wx does is kept to what the file relies
    on: an event that is posted waits in the queue of the frame, and an
    event that is processed goes to the handler bound to its type. *)

Module updater.

Inductive PyValue :=
  | PyNone
  | PyInt (z : Z)
  | PyStr (s : string).

(** [str(v)], which is what ["{}".format(v)] renders. *)
Definition str (v : PyValue) : string :=
  match v with
  | PyNone => "None"
  | PyInt z => pretty z
  | PyStr s => s
  end.

(** The event types: the four made by [wx.NewEventType()], each new, and
    the type of a click on a button. *)
Inductive EventType :=
  | myEVT_GAUGE
  | myEVT_TEXT
  | myEVT_FORCE_DESTROY
  | myEVT_AVAILABLE_UPDATE
  | wx_EVT_BUTTON.

(** Whether two event types are the same one. *)
Definition same_type (a b : EventType) : bool :=
  match a, b with
  | myEVT_GAUGE, myEVT_GAUGE
  | myEVT_TEXT, myEVT_TEXT
  | myEVT_FORCE_DESTROY, myEVT_FORCE_DESTROY
  | myEVT_AVAILABLE_UPDATE, myEVT_AVAILABLE_UPDATE
  | wx_EVT_BUTTON, wx_EVT_BUTTON => true
  | _, _ => false
  end.

(** The event classes of the file, and [wx.CommandEvent] for a click. *)
Inductive EventClass :=
  | GaugeEvent
  | TextEvent
  | ForceDestroyEvent
  | AvailableUpdateEvent
  | CommandEvent.

(** An event object: what [wx.PyCommandEvent.__init__(self, etype, eid)]
    keeps, and [self._value]. *)
Record Event := {
  e_class : EventClass;
  e_type : EventType;
  e_id : Z;
  e_value : PyValue }.

(** [GaugeEvent(etype, eid, value)] and the three alike; [value] is None
    when it is not given. *)
Definition new_event (c : EventClass) (etype : EventType) (eid : Z)
    (value : option PyValue) : Event :=
  {| e_class := c; e_type := etype; e_id := eid;
     e_value := match value with Some v => v | None => PyNone end |}.

Definition GetValue (e : Event) : PyValue := e_value e.

Inductive Class := DummyUpdater | Updater.

(** The handlers that the frames bind. *)
Inductive Method :=
  | OnGauge
  | OnText
  | OnForceDestroy
  | OnAvailableUpdate
  | OnCancel.

(** What the user answers to a message box. *)
Inductive Answer := wx_YES | wx_NO.

(** An [AutoUpdate(build, window, just_checking=...)], started or not. *)
Record AutoUpdate := {
  au_build : Z;
  au_just_checking : bool;
  au_started : bool }.

(** What the widgets of an [Updater] show: the value of [self.text] and
    that of [self.gauge].  What wx itself checks of the values a widget
    is given is left out. *)
Record Widgets := {
  text : PyValue;
  gauge : PyValue }.

(** A frame: its class, its attributes, the handlers bound to it, its
    widgets once [InitUI] has made them, and the events posted to it that
    wait to be processed. *)
Record Frame := {
  cls : Class;
  autoupdater : option AutoUpdate;
  autoupdate : option AutoUpdate;
  default_text : PyValue;
  progress : Z;
  bound : list (EventType * Method);
  widgets : option Widgets;
  shown : bool;
  centered : bool;
  destroyed : bool;
  pending : list Event }.

Definition set_autoupdate (a : AutoUpdate) (f : Frame) : Frame :=
  {| cls := cls f; autoupdater := autoupdater f; autoupdate := Some a;
     default_text := default_text f; progress := progress f;
     bound := bound f; widgets := widgets f; shown := shown f;
     centered := centered f; destroyed := destroyed f;
     pending := pending f |}.

Definition set_default_text (v : PyValue) (f : Frame) : Frame :=
  {| cls := cls f; autoupdater := autoupdater f; autoupdate := autoupdate f;
     default_text := v; progress := progress f;
     bound := bound f; widgets := widgets f; shown := shown f;
     centered := centered f; destroyed := destroyed f;
     pending := pending f |}.

Definition set_bound (b : list (EventType * Method)) (f : Frame) : Frame :=
  {| cls := cls f; autoupdater := autoupdater f; autoupdate := autoupdate f;
     default_text := default_text f; progress := progress f;
     bound := b; widgets := widgets f; shown := shown f;
     centered := centered f; destroyed := destroyed f;
     pending := pending f |}.

Definition set_widgets (w : Widgets) (f : Frame) : Frame :=
  {| cls := cls f; autoupdater := autoupdater f; autoupdate := autoupdate f;
     default_text := default_text f; progress := progress f;
     bound := bound f; widgets := Some w; shown := shown f;
     centered := centered f; destroyed := destroyed f;
     pending := pending f |}.

Definition set_shown (f : Frame) : Frame :=
  {| cls := cls f; autoupdater := autoupdater f; autoupdate := autoupdate f;
     default_text := default_text f; progress := progress f;
     bound := bound f; widgets := widgets f; shown := true;
     centered := centered f; destroyed := destroyed f;
     pending := pending f |}.

Definition set_centered (f : Frame) : Frame :=
  {| cls := cls f; autoupdater := autoupdater f; autoupdate := autoupdate f;
     default_text := default_text f; progress := progress f;
     bound := bound f; widgets := widgets f; shown := shown f;
     centered := true; destroyed := destroyed f;
     pending := pending f |}.

Definition set_pending (p : list Event) (f : Frame) : Frame :=
  {| cls := cls f; autoupdater := autoupdater f; autoupdate := autoupdate f;
     default_text := default_text f; progress := progress f;
     bound := bound f; widgets := widgets f; shown := shown f;
     centered := centered f; destroyed := destroyed f;
     pending := p |}.

(** [self.Destroy()] *)
Definition Destroy (f : Frame) : Frame :=
  {| cls := cls f; autoupdater := autoupdater f; autoupdate := autoupdate f;
     default_text := default_text f; progress := progress f;
     bound := bound f; widgets := widgets f; shown := shown f;
     centered := centered f; destroyed := true;
     pending := pending f |}.

(** [self.Bind(event, handler)] *)
Definition Bind (t : EventType) (m : Method) (f : Frame) : Frame :=
  set_bound (bound f ++ [(t, m)]) f.

(** [wx.PostEvent(self, evt)] *)
Definition PostEvent (e : Event) (f : Frame) : Frame :=
  set_pending (pending f ++ [e]) f.

(** *** DummyUpdater *)

(** [DummyUpdater.__init__], on a frame of class [c]. *)
Definition DummyUpdater_init (c : Class) : Frame :=
  let self :=
    {| cls := c; autoupdater := None; autoupdate := None;
       default_text := PyStr "Loading..."; progress := 0;
       bound := []; widgets := None; shown := false; centered := false;
       destroyed := false; pending := [] |} in
  (* Event binding *)
  let self := Bind myEVT_GAUGE OnGauge self in
  let self := Bind myEVT_TEXT OnText self in
  let self := Bind myEVT_FORCE_DESTROY OnForceDestroy self in
  Bind myEVT_AVAILABLE_UPDATE OnAvailableUpdate self.

(** [create_updater]: the [AutoUpdate] is made with the build of the
    program, and started. *)
Definition create_updater (BUILD : Z) (just_checking : bool) (f : Frame)
    : Frame :=
  set_autoupdate
    {| au_build := BUILD; au_just_checking := just_checking;
       au_started := true |} f.

Definition UpdateGauge (value : PyValue) (f : Frame) : Frame :=
  let evt := new_event GaugeEvent myEVT_GAUGE (-1) (Some value) in
  PostEvent evt f.

Definition UpdateText (text : PyValue) (f : Frame) : Frame :=
  let evt := new_event TextEvent myEVT_TEXT (-1) (Some text) in
  PostEvent evt f.

Definition AskDestroy (f : Frame) : Frame :=
  let evt :=
    new_event ForceDestroyEvent myEVT_FORCE_DESTROY (-1) (Some PyNone) in
  PostEvent evt f.

Definition AvailableUpdate (build : PyValue) (f : Frame) : Frame :=
  let evt :=
    new_event AvailableUpdateEvent myEVT_AVAILABLE_UPDATE (-1)
      (Some build) in
  PostEvent evt f.

(** *** Updater *)

Definition InitUI (f : Frame) : Frame :=
  let f := set_widgets {| text := PyStr "Loading..."; gauge := PyInt 0 |} f in
  (* Event binding *)
  Bind wx_EVT_BUTTON OnCancel f.

(** [Updater.__init__] *)
Definition Updater_init (BUILD : Z) (just_checking : bool) : Frame :=
  let self := DummyUpdater_init Updater in
  let self := create_updater BUILD just_checking self in
  let self := InitUI self in
  let self := set_shown self in
  set_centered self.

(** [Updater.OnGauge] *)
Definition Updater_OnGauge (e : Event) (f : Frame) : result unit * Frame :=
  match widgets f with
  | None => (Raise (Error "AttributeError"), f)
  | Some w =>
      let f := set_widgets {| text := text w; gauge := GetValue e |} f in
      let text := default_text f in
      match text with
      | PyStr t =>
          let text := t +:+ (" (" +:+ str (GetValue e) +:+ "%)") in
          (Ok (), set_widgets {| text := PyStr text; gauge := GetValue e |} f)
      | _ => (Raise (Error "TypeError"), f)
      end
  end.

(** [Updater.OnText] *)
Definition Updater_OnText (e : Event) (f : Frame) : result unit * Frame :=
  let f := set_default_text (GetValue e) f in
  match widgets f with
  | None => (Raise (Error "AttributeError"), f)
  | Some w =>
      (Ok (), set_widgets {| text := GetValue e; gauge := gauge w |} f)
  end.

(** [Updater.OnForceDestroy] *)
Definition Updater_OnForceDestroy (e : Event) (f : Frame)
    : result unit * Frame :=
  (Ok (), Destroy f).

(** [Updater.OnCancel]: [answer] is what the message box returns. *)
Definition Updater_OnCancel (answer : Answer) (e : Event) (f : Frame)
    : result unit * Frame :=
  let value := answer in
  match value with
  | wx_YES => (Ok (), Destroy f)
  | wx_NO => (Ok (), f)
  end.

(** The handlers of [DummyUpdater], which do nothing. *)
Definition pass (e : Event) (f : Frame) : result unit * Frame := (Ok (), f).

(** The method [m] of a frame, as its class resolves it: [Updater]
    overrides three handlers and adds [OnCancel]. *)
Definition method (c : Class) (m : Method) (answer : Answer)
    : Event → Frame → result unit * Frame :=
  match c, m with
  | Updater, OnGauge => Updater_OnGauge
  | Updater, OnText => Updater_OnText
  | Updater, OnForceDestroy => Updater_OnForceDestroy
  | Updater, OnCancel => Updater_OnCancel answer
  | Updater, OnAvailableUpdate => pass
  | DummyUpdater, OnCancel => λ _ f, (Raise (Error "AttributeError"), f)
  | DummyUpdater, _ => pass
  end.

(** The handler bound to an event type, if any. *)
Fixpoint handler_of (t : EventType) (b : list (EventType * Method))
    : option Method :=
  match b with
  | [] => None
  | (t', m) :: b' => if same_type t t' then Some m else handler_of t b'
  end.

(** The frame processes an event: the handler bound to its type runs; an
    event of a type that is not bound is dropped. *)
Definition ProcessEvent (answer : Answer) (e : Event) (f : Frame)
    : result unit * Frame :=
  match handler_of (e_type e) (bound f) with
  | Some m => method (cls f) m answer e f
  | None => (Ok (), f)
  end.

(** The events in [es] are processed in turn, up to the first handler
    that raises. *)
Fixpoint process_all (answer : Answer) (es : list Event) (f : Frame)
    : result unit * Frame :=
  match es with
  | [] => (Ok (), f)
  | e :: es' =>
      match ProcessEvent answer e f with
      | (Ok _, f') => process_all answer es' f'
      | (Raise x, f') => (Raise x, f')
      end
  end.


(** *** What the window shows after a run of updates *)







(** *** What happens to a window over its life *)

(** What is done to a frame once [__init__] has made it: any method of
    its class is called, by the threads that work for the window or by
    anyone who holds it, with whatever arguments; the user clicks on
    the button; the main loop processes the oldest event that waits.
    [answer] is what the user answers should a message box come up.  A
    handler that is called, or that an event goes to, may raise: the
    frame is then as the handler left it. *)
Inductive Action :=
  | CallCreateUpdater (just_checking : bool)
  | CallUpdateGauge (value : PyValue)
  | CallUpdateText (text : PyValue)
  | CallAskDestroy
  | CallAvailableUpdate (build : PyValue)
  | CallInitUI
  | CallHandler (m : Method) (answer : Answer) (e : Event)
  | Click
  | ProcessOne (answer : Answer).

Definition act (BUILD : Z) (a : Action) (f : Frame) : Frame :=
  match a with
  | CallCreateUpdater just_checking => create_updater BUILD just_checking f
  | CallUpdateGauge value => UpdateGauge value f
  | CallUpdateText text => UpdateText text f
  | CallAskDestroy => AskDestroy f
  | CallAvailableUpdate build => AvailableUpdate build f
  | CallInitUI => InitUI f
  | CallHandler m answer e => (method (cls f) m answer e f).2
  | Click => PostEvent (new_event CommandEvent wx_EVT_BUTTON 0 None) f
  | ProcessOne answer =>
      match pending f with
      | [] => f
      | e :: es => (ProcessEvent answer e (set_pending es f)).2
      end
  end.

Definition act_all (BUILD : Z) (acts : list Action) (f : Frame) : Frame :=
  foldl (λ f a, act BUILD a f) f acts.

(** How many times [InitUI] is called in a run of actions. *)
Fixpoint InitUI_calls (acts : list Action) : nat :=
  match acts with
  | [] => O
  | CallInitUI :: acts' => S (InitUI_calls acts')
  | _ :: acts' => InitUI_calls acts'
  end.

End updater.

(** ** Running a computation by hand *)

Ltac unfold_prims :=
  unfold open, load, open_help, create_logger, settings_getitem,
    set_world_client, set_client_sharp_engine, set_world_sharp_engine,
    set_world_engine, GUIClient, new_SharpScript, new_FileHandler,
    new_StreamHandler, getLogger, setLevel, addHandler, info, debug, log,
    os_path_exists, os_mkdir, os_startfile, lift, raise, modify, get_self,
    get_state in *.

Ltac run :=
  unfold_prims; unfold mbind, M_bind, mret, M_ret in *; simpl in *.

Section create_logger_facts.

Context `{Collaborators}.

Lemma physical_name_child n :
  n ≠ "" → physical_name n = "cocomud." +:+ n.
Proof.
  intros Hn. unfold physical_name, py_not.
  by rewrite bool_decide_eq_false_2.
Qed.

Lemma child_is_not_root n : "cocomud." +:+ n ≠ "cocomud".
Proof. simpl. intros [=]. Qed.

Lemma physical_name_inj n n' :
  physical_name n = physical_name n' → n = n'.
Proof.
  unfold physical_name, py_not.
  repeat case_bool_decide; subst; simpl; try done; intros [=]; done.
Qed.

(** A call that returns has the channel in [self.loggers]. *)
Lemma create_logger_cached n f s lg s' :
  create_logger n f s = (Ok lg, s') →
  loggers (engine s') !! physical_name n = Some lg.
Proof.
  run. destruct (loggers (engine s) !! physical_name n) eqn:Hc.
  - intros [= <- <-]. done.
  - destruct (manager s !! physical_name n) eqn:Hm; simpl;
      case_bool_decide; simpl;
      match goal with
      | |- context [FileHandler_error ?st ?p] =>
          destruct (FileHandler_error st p)
      end; simpl; intros [= <- <-]; simpl; by rewrite lookup_insert_eq.
Qed.

End create_logger_facts.

Section create_logger_claims.

Context `{Collaborators}.

(** C9. For every value [f] of the filename argument,
    [create_logger("", f)] ignores [f]: the file of the root channel is
    the join of "logs" and "main.log" whatever [f] is, and the call does
    to every state what the call without a filename does. *)
Theorem create_logger_root_ignores_filename (f : option string) (s : State) :
  log_file "" f = os_path_join "logs" "main.log" ∧
  create_logger "" f s = create_logger "" None s.
Proof. split; reflexivity. Qed.

(** C2. Once [create_logger] has returned a channel for a name, a second
    call whose name resolves to the same physical name, with any
    filename, returns that same channel and changes nothing: the state,
    and so the sinks of the channel, are those the first call left. *)
Theorem create_logger_idempotent (n n' : string) (f f' : option string)
    (s s1 : State) (lg : string) :
  create_logger n f s = (Ok lg, s1) →
  physical_name n' = physical_name n →
  create_logger n' f' s1 = (Ok lg, s1) ∧
  sinks (create_logger n' f' s1).2 lg = sinks s1 lg.
Proof.
  intros Hfirst Hname.
  apply create_logger_cached in Hfirst.
  assert (create_logger n' f' s1 = (Ok lg, s1)) as Hsecond.
  { unfold create_logger. rewrite Hname. run. by rewrite Hfirst. }
  by rewrite Hsecond.
Qed.

(** C5. A channel that [create_logger] builds (its physical name is
    neither in [self.loggers] nor known to the logging module) has the
    level debug.  For the name "" it is the channel "cocomud" with a
    console sink of threshold info and then a file sink of threshold
    debug, UTF-8, on the join of "logs" and "main.log".  For a name [n]
    that is not empty it is the channel "cocomud." + n with a file sink
    alone, of threshold debug, UTF-8: on the join of "logs" and
    n + ".log" when no filename is given, or an empty one, and on the
    filename given otherwise. *)
Theorem create_logger_sinks (n : string) (f : option string)
    (s s' : State) (lg : string) :
  loggers (engine s) !! physical_name n = None →
  manager s !! physical_name n = None →
  create_logger n f s = (Ok lg, s') →
  (n = "" →
     lg = "cocomud" ∧
     manager s' !! lg =
       Some {| lg_level := DEBUG;
               lg_handlers :=
                 [console_sink;
                  file_sink (os_path_join "logs" "main.log")] |}) ∧
  (n ≠ "" →
     lg = "cocomud." +:+ n ∧
     ∃ file,
       manager s' !! lg =
         Some {| lg_level := DEBUG; lg_handlers := [file_sink file] |} ∧
       (f = None → file = os_path_join "logs" (n +:+ ".log")) ∧
       (f = Some "" → file = os_path_join "logs" (n +:+ ".log")) ∧
       (∀ f', f = Some f' → f' ≠ "" → file = f')).
Proof.
  intros Hc Hm Hrun. split.
  - intros ->. revert Hc Hm Hrun. run. intros -> ->. simpl.
    match goal with
    | |- context [FileHandler_error ?st ?p] =>
        destruct (FileHandler_error st p)
    end; simpl; intros [= <- <-].
    split; [done|]. simpl.
    rewrite lookup_alter_eq, lookup_alter_eq, lookup_alter_eq.
    by rewrite lookup_insert_eq.
  - intros Hn. revert Hc Hm Hrun.
    unfold create_logger, log_file. rewrite (physical_name_child n Hn).
    unfold py_not at 1. rewrite (bool_decide_eq_false_2 (n = "") Hn).
    rewrite (bool_decide_eq_false_2 _ (child_is_not_root n)).
    run. intros -> ->. simpl.
    match goal with
    | |- context [FileHandler_error ?st ?p] =>
        destruct (FileHandler_error st p)
    end; simpl; intros [= <- <-].
    split; [done|].
    exists (py_or f (os_path_join "logs" (n +:+ ".log"))).
    split; [|split; [|split]].
    + simpl. rewrite lookup_alter_eq, lookup_alter_eq.
      by rewrite lookup_insert_eq.
    + by intros ->.
    + by intros ->.
    + intros f' -> Hf'. unfold py_or, py_not.
      by rewrite (bool_decide_eq_false_2 _ Hf').
Qed.

End create_logger_claims.

Section open_claims.

Context `{Collaborators}.

(** C1. If, in [open(host, port, w)], the construction of the client
    raises [e], or the client is built and the construction of the
    script engine raises [e], then [open] raises [e] to its caller and
    no world object has changed: a world whose [client] and
    [sharp_engine] were unset has them unset still. *)
Theorem open_failure_leaves_world_unset (host : string) (port : Z)
    (w : nat) (s : State) (e : Exn) (wobj : World) :
  world_store s !! w = Some wobj →
  w_client wobj = None →
  w_sharp_engine wobj = None →
  let id := self_id (engine s) in
  let s0 := announced host port s in
  ((GUIClient host port id w s0).1 = Raise e ∨
   ∃ c s1, GUIClient host port id w s0 = (Ok c, s1) ∧
           (new_SharpScript id c w s1).1 = Raise e) →
  (open host port w s).1 = Raise e ∧
  world_store (open host port w s).2 = world_store s ∧
  ∃ wobj', world_store (open host port w s).2 !! w = Some wobj' ∧
           w_client wobj' = None ∧ w_sharp_engine wobj' = None.
Proof.
  intros Hw Hc Hsh id s0 Hraise.
  assert ((open host port w s).1 = Raise e ∧
          world_store (open host port w s).2 = world_store s) as [Hr Hst].
  { subst id s0. unfold announced in Hraise. revert Hraise. run.
    destruct (GUIClient_error _ host port w) as [e1|]; simpl.
    - intros [Hg | (c & s1 & [=] & _)]. by split.
    - destruct (SharpScript_error _ _ w) as [e2|] eqn:Hs; simpl.
      + intros [[=] | (c & s1 & [= <- <-] & Hs')]. revert Hs'. simpl.
        rewrite Hs. simpl. by split.
      + intros [[=] | (c & s1 & [= <- <-] & Hs')]. revert Hs'. simpl.
        rewrite Hs. simpl. intros [=]. }
  split; [done|]. split; [done|].
  exists wobj. by rewrite Hst.
Qed.

(** C3. When [open(host, port, w)] returns, what it returns is the
    client it has just built, a reference that named no client before;
    [w.client] is that client, [w.sharp_engine] is the script engine it
    has just built, and the [sharp_engine] of that client is this same
    script engine, which itself refers to the client and to [w]. *)
Theorem open_wires_world (host : string) (port : Z) (w : nat)
    (s s' : State) (c : nat) (wobj : World) :
  world_store s !! w = Some wobj →
  open host port w s = (Ok c, s') →
  c = length (client_store s) ∧
  client_store s !! c = None ∧
  sharp_store s !! length (sharp_store s) = None ∧
  ∃ wobj' cobj sobj,
    let sh := length (sharp_store s) in
    world_store s' !! w = Some wobj' ∧
    w_client wobj' = Some c ∧
    w_sharp_engine wobj' = Some sh ∧
    client_store s' !! c = Some cobj ∧
    c_sharp_engine cobj = w_sharp_engine wobj' ∧
    c_world cobj = w ∧
    c_host cobj = host ∧ c_port cobj = port ∧
    c_engine cobj = self_id (engine s) ∧
    sharp_store s' !! sh = Some sobj ∧
    s_client sobj = c ∧ s_world sobj = w ∧
    s_engine sobj = self_id (engine s).
Proof.
  intros Hw. run.
  destruct (GUIClient_error _ host port w) as [e1|]; simpl; [done|].
  destruct (SharpScript_error _ _ w) as [e2|]; simpl; [done|].
  intros [= <- <-]. simpl.
  split; [done|].
  split; [by apply lookup_ge_None_2|].
  split; [by apply lookup_ge_None_2|].
  eexists _, _, _.
  rewrite !list_lookup_alter_eq, Hw. simpl.
  rewrite !list_lookup_middle by done. simpl.
  repeat split; reflexivity.
Qed.

(** C8. [open(host, port, w2)], whether it returns or raises, leaves
    every world other than [w2] as it was, so [w1.client] and
    [w1.sharp_engine] are the objects they were; the clients and script
    engines that existed are as they were; and the engine itself, with
    its world map, its settings and its level, is unchanged. *)
Theorem open_frame (host : string) (port : Z) (w1 w2 : nat) (s : State) :
  w1 ≠ w2 →
  let s' := (open host port w2 s).2 in
  world_store s' !! w1 = world_store s !! w1 ∧
  (∀ c cobj, client_store s !! c = Some cobj →
             client_store s' !! c = Some cobj) ∧
  (∀ sh sobj, sharp_store s !! sh = Some sobj →
              sharp_store s' !! sh = Some sobj) ∧
  engine s' = engine s ∧
  worlds (engine s') = worlds (engine s) ∧
  settings (engine s') = settings (engine s) ∧
  level (engine s') = level (engine s).
Proof.
  intros Hne. run.
  destruct (GUIClient_error _ host port w2) as [e1|]; simpl; [done|].
  destruct (SharpScript_error _ _ w2) as [e2|]; simpl.
  - repeat split; try done.
    intros c cobj Hc. rewrite lookup_app_l; [done|].
    by apply lookup_lt_Some in Hc.
  - repeat split; try done.
    + by rewrite !list_lookup_alter_ne.
    + intros c cobj Hc. pose proof (lookup_lt_Some _ _ _ Hc) as Hlt.
      rewrite list_lookup_alter_ne by lia.
      by rewrite lookup_app_l.
    + intros sh sobj Hsh. pose proof (lookup_lt_Some _ _ _ Hsh) as Hlt.
      by rewrite lookup_app_l.
Qed.

End open_claims.

Section open_help_claims.

Context `{Collaborators}.


End open_help_claims.

Section settings_claims.

(** C6. The members of [Level] are bound to increasing integers, engine
    = 1 < world = 2 < character = 3 < category = 4, and the settings
    store resolves a key along them: the value of a level that defines
    the key while no level of greater rank does; the declared default
    when no level defines the key; a KeyError when, in addition, no
    default is declared. *)
Theorem settings_level_precedence (st : Settings) (key : string) :
  (Level.value Level.engine = 1 ∧ Level.value Level.world = 2 ∧
   Level.value Level.character = 3 ∧ Level.value Level.category = 4) ∧
  (∀ l v,
     layers st l !! key = Some v →
     (∀ l', Level.value l < Level.value l' → layers st l' !! key = None) →
     Settings_get st key = Ok v) ∧
  (∀ v,
     (∀ l, layers st l !! key = None) →
     defaults st !! key = Some v →
     Settings_get st key = Ok v) ∧
  ((∀ l, layers st l !! key = None) →
   defaults st !! key = None →
   Settings_get st key = Raise (KeyError key)).
Proof.
  split; [done|]. split; [|split].
  - intros l v Hl Hup. unfold Settings_get, precedence, resolve.
    destruct l; simpl in Hup;
      repeat match goal with
      | |- context [layers st ?l' !! key] =>
          first [ rewrite Hl
                | rewrite (Hup l') by (simpl; lia) ]
      end; done.
  - intros v Hno Hd. unfold Settings_get, precedence, resolve.
    by rewrite !Hno, Hd.
  - intros Hno Hd. unfold Settings_get, precedence, resolve.
    by rewrite !Hno, Hd.
Qed.

End settings_claims.

Section load_claims.

Context `{Collaborators}.

Lemma for_each_set_world_engine (id : nat) (ws : list nat) (s : State) :
  for_each ws (λ world, set_world_engine world id) s =
  (Ok (), with_world_store (engine_assigned id ws) s).
Proof.
  revert s. induction ws as [|w ws IH]; intros s.
  - by destruct s.
  - simpl. unfold mbind, M_bind. unfold set_world_engine at 1, modify.
    by rewrite IH.
Qed.

(** The loop leaves a world as it was or with its engine assigned. *)
Lemma engine_assigned_lookup (id : nat) (ws : list nat) (st : list World)
    (w : nat) (o : World) :
  st !! w = Some o →
  engine_assigned id ws st !! w = Some o ∨
  engine_assigned id ws st !! w = Some (assign_w_engine id o).
Proof.
  revert st o. induction ws as [|a ws IH]; intros st o Hw; simpl.
  - by left.
  - destruct (decide (a = w)) as [->|Hne].
    + right.
      destruct (IH (alter (assign_w_engine id) w st) (assign_w_engine id o))
        as [Hr|Hr]; [by rewrite list_lookup_alter_eq, Hw|done..].
    + apply IH. by rewrite list_lookup_alter_ne.
Qed.

(** The loop assigns the engine of every world it goes through. *)
Lemma engine_assigned_elem (id : nat) (ws : list nat) (st : list World)
    (w : nat) (o : World) :
  w ∈ ws → st !! w = Some o →
  engine_assigned id ws st !! w = Some (assign_w_engine id o).
Proof.
  revert st o. induction ws as [|a ws IH]; intros st o Hin Hw; simpl.
  - by apply elem_of_nil in Hin.
  - destruct (decide (a = w)) as [->|Hne].
    + destruct (engine_assigned_lookup id ws
                  (alter (assign_w_engine id) w st)
                  w (assign_w_engine id o)) as [Hr|Hr];
        [by rewrite list_lookup_alter_eq, Hw|done..].
    + apply elem_of_cons in Hin as [->|Hin]; [done|].
      apply IH; [done|]. by rewrite list_lookup_alter_ne.
Qed.

Lemma elem_of_values (d : gmap string nat) (name : string) (w : nat) :
  d !! name = Some w → w ∈ values d.
Proof.
  intros Hd. unfold values. apply list_elem_of_fmap.
  exists (name, w). split; [done|]. by apply elem_of_map_to_list.
Qed.

(** [load] returns as soon as [Settings.load] returns and the store has
    the two keys, and this is the state it leaves. *)
Lemma load_returns (s : State) (st : Settings) (on out : Value) :
  Settings_load (settings (engine s)) = (Ok (), st) →
  Settings_get st "options.TTS.on" = Ok on →
  Settings_get st "options.TTS.outside" = Ok out →
  load s =
  (Ok (),
   with_world_store
     (engine_assigned (self_id (engine s)) (values (worlds (engine s))))
     (with_engine (assign_TTS_outside out)
        (with_engine (assign_TTS_on on)
           (with_engine (assign_settings st)
              (with_log_calls (λ l, l ++
                 [{| r_name := logger (engine s); r_levelno := INFO;
                     r_msg := "Loading the user's configuration..." |}])
                 s))))).
Proof.
  intros Hload Hon Hout.
  unfold load, settings_load. run. rewrite Hload. simpl.
  rewrite Hon. simpl. rewrite Hout. simpl.
  apply for_each_set_world_engine.
Qed.

(** [load] raises when [Settings.load] or one of the two lookups does. *)
Lemma load_returns_inv (s s' : State) :
  load s = (Ok (), s') →
  ∃ st on out,
    Settings_load (settings (engine s)) = (Ok (), st) ∧
    Settings_get st "options.TTS.on" = Ok on ∧
    Settings_get st "options.TTS.outside" = Ok out.
Proof.
  destruct (Settings_load (settings (engine s))) as [[[]|e] st] eqn:Hload.
  - destruct (Settings_get st "options.TTS.on") as [on|e] eqn:Hon.
    + destruct (Settings_get st "options.TTS.outside") as [out|e] eqn:Hout.
      * intros _. by exists st, on, out.
      * unfold load, settings_load. run. rewrite Hload. simpl.
        rewrite Hon. simpl. by rewrite Hout.
    + unfold load, settings_load. run. rewrite Hload. simpl.
      by rewrite Hon.
  - unfold load, settings_load. run. by rewrite Hload.
Qed.

(** C7. A call of [load] that returns has called [Settings.load], whose
    settings the engine now holds; [TTS_on] and [TTS_outside] hold the
    values the store gives for "options.TTS.on" and "options.TTS.outside";
    no other attribute of the engine has changed; and every world of the
    world map has the engine as its [engine]. *)
Theorem load_assigns_every_world (s s' : State) :
  (∀ name w, worlds (engine s) !! name = Some w →
             is_Some (world_store s !! w)) →
  load s = (Ok (), s') →
  (∃ st on out,
     Settings_load (settings (engine s)) = (Ok (), st) ∧
     settings (engine s') = st ∧
     Settings_get st "options.TTS.on" = Ok on ∧
     TTS_on (engine s') = Some on ∧
     Settings_get st "options.TTS.outside" = Ok out ∧
     TTS_outside (engine s') = Some out) ∧
  (self_id (engine s') = self_id (engine s) ∧
   loggers (engine s') = loggers (engine s) ∧
   logger (engine s') = logger (engine s) ∧
   worlds (engine s') = worlds (engine s) ∧
   default_world (engine s') = default_world (engine s) ∧
   level (engine s') = level (engine s)) ∧
  ∀ name w, worlds (engine s') !! name = Some w →
    ∃ wobj, world_store s' !! w = Some wobj ∧
            w_engine wobj = Some (self_id (engine s')).
Proof.
  intros Hlive Hrun.
  destruct (load_returns_inv s s' Hrun) as (st & on & out & Hload & Hon & Hout).
  rewrite (load_returns s st on out Hload Hon Hout) in Hrun.
  injection Hrun as <-. simpl.
  split; [by exists st, on, out|]. split; [done|].
  intros name w Hw. destruct (Hlive name w Hw) as [o Ho].
  exists (assign_w_engine (self_id (engine s)) o). split; [|done].
  apply engine_assigned_elem; [|done]. by eapply elem_of_values.
Qed.

(** C10. When [Settings.load] returns and the lookup of
    "options.TTS.on", or after it that of "options.TTS.outside", raises
    [e], [load] raises [e] and the world store is as it was: no world
    has had its [engine] assigned. *)
Theorem load_lookup_failure_assigns_no_world (s : State) (st : Settings)
    (e : Exn) :
  Settings_load (settings (engine s)) = (Ok (), st) →
  (Settings_get st "options.TTS.on" = Raise e ∨
   ∃ on, Settings_get st "options.TTS.on" = Ok on ∧
         Settings_get st "options.TTS.outside" = Raise e) →
  (load s).1 = Raise e ∧
  world_store (load s).2 = world_store s.
Proof.
  intros Hload Hraise.
  unfold load, settings_load. run. rewrite Hload. simpl.
  destruct Hraise as [Hon | (on & Hon & Hout)].
  - by rewrite Hon.
  - rewrite Hon. simpl. by rewrite Hout.
Qed.

End load_claims.

(** ** The properties on a concrete engine *)

Lemma create_logger_idempotent_witness :
  @create_logger Demo.collaborators "sharp" (Some "x.log") Demo.started_state
    = (Ok "cocomud.sharp", Demo.with_sharp) ∧
  physical_name "sharp" = physical_name "sharp" ∧
  @create_logger Demo.collaborators "sharp" None Demo.with_sharp
    = (Ok "cocomud.sharp", Demo.with_sharp) ∧
  sinks (@create_logger Demo.collaborators "sharp" None Demo.with_sharp).2
    "cocomud.sharp" = sinks Demo.with_sharp "cocomud.sharp".
Proof.
  assert (@create_logger Demo.collaborators "sharp" (Some "x.log")
            Demo.started_state = (Ok "cocomud.sharp", Demo.with_sharp))
    as Hfirst by (vm_compute; reflexivity).
  split; [exact Hfirst|]. split; [reflexivity|].
  exact (@create_logger_idempotent Demo.collaborators "sharp" "sharp"
           (Some "x.log") None Demo.started_state Demo.with_sharp
           "cocomud.sharp" Hfirst eq_refl).
Defined.

Lemma create_logger_sinks_witness :
  loggers (engine Demo.unstarted) !! physical_name "" = None ∧
  manager Demo.unstarted !! physical_name "" = None ∧
  manager (@create_logger Demo.collaborators "" None Demo.unstarted).2
    !! "cocomud"
    = Some {| lg_level := DEBUG;
              lg_handlers := [console_sink; file_sink "logs/main.log"] |} ∧
  manager (@create_logger Demo.collaborators "sharp" None
             Demo.started_state).2 !! "cocomud.sharp"
    = Some {| lg_level := DEBUG;
              lg_handlers := [file_sink "logs/sharp.log"] |} ∧
  manager (@create_logger Demo.collaborators "sharp" (Some "x.log")
             Demo.started_state).2 !! "cocomud.sharp"
    = Some {| lg_level := DEBUG; lg_handlers := [file_sink "x.log"] |}.
Proof.
  split; [reflexivity|]. split; [reflexivity|]. split; [|split].
  - exact (proj2 (proj1
      (@create_logger_sinks Demo.collaborators "" None Demo.unstarted
         (@create_logger Demo.collaborators "" None Demo.unstarted).2
         "cocomud" eq_refl eq_refl
         ltac:(vm_compute; reflexivity)) eq_refl)).
  - destruct (proj2
      (@create_logger_sinks Demo.collaborators "sharp" None
         Demo.started_state
         (@create_logger Demo.collaborators "sharp" None
            Demo.started_state).2
         "cocomud.sharp" ltac:(vm_compute; reflexivity)
         ltac:(vm_compute; reflexivity)
         ltac:(vm_compute; reflexivity)) ltac:(intros [=]))
      as (_ & file & Hm & Hnone & _).
    rewrite Hm, (Hnone eq_refl). reflexivity.
  - destruct (proj2
      (@create_logger_sinks Demo.collaborators "sharp" (Some "x.log")
         Demo.started_state
         (@create_logger Demo.collaborators "sharp" (Some "x.log")
            Demo.started_state).2
         "cocomud.sharp" ltac:(vm_compute; reflexivity)
         ltac:(vm_compute; reflexivity)
         ltac:(vm_compute; reflexivity)) ltac:(intros [=]))
      as (_ & file & Hm & _ & _ & Hgiven).
    rewrite Hm, (Hgiven "x.log" eq_refl ltac:(intros [=])). reflexivity.
Defined.

Lemma open_failure_leaves_world_unset_witness :
  world_store Demo.started_state !! 1%nat = Some (Demo.unopened "w2") ∧
  (∃ c s1,
     @GUIClient Demo.collaborators "host" 4000 7 1
       (announced "host" 4000 Demo.started_state) = (Ok c, s1) ∧
     (@new_SharpScript Demo.collaborators 7 c 1 s1).1
       = Raise (Error "script")) ∧
  (@open Demo.collaborators "host" 4000 1 Demo.started_state).1
    = Raise (Error "script") ∧
  world_store (@open Demo.collaborators "host" 4000 1 Demo.started_state).2
    = world_store Demo.started_state.
Proof.
  assert (∃ c s1,
     @GUIClient Demo.collaborators "host" 4000 7 1
       (announced "host" 4000 Demo.started_state) = (Ok c, s1) ∧
     (@new_SharpScript Demo.collaborators 7 c 1 s1).1
       = Raise (Error "script")) as Hraise.
  { eexists _, _. split; vm_compute; reflexivity. }
  split; [reflexivity|]. split; [exact Hraise|].
  destruct (@open_failure_leaves_world_unset Demo.collaborators "host" 4000 1
              Demo.started_state (Error "script") (Demo.unopened "w2")
              eq_refl eq_refl eq_refl (or_intror Hraise))
    as (Hr & Hst & _).
  split; [exact Hr | exact Hst].
Defined.

Lemma open_wires_world_witness :
  world_store Demo.loaded !! 0%nat
    = Some (assign_w_engine 7 (Demo.unopened "w1")) ∧
  @open Demo.collaborators "mud.example.org" 4000 0 Demo.loaded
    = (Ok 0%nat, Demo.opened) ∧
  ∃ wobj' cobj,
    world_store Demo.opened !! 0%nat = Some wobj' ∧
    w_client wobj' = Some 0%nat ∧
    client_store Demo.opened !! 0%nat = Some cobj ∧
    c_sharp_engine cobj = w_sharp_engine wobj'.
Proof.
  assert (@open Demo.collaborators "mud.example.org" 4000 0 Demo.loaded
            = (Ok 0%nat, Demo.opened)) as Hopen
    by (vm_compute; reflexivity).
  split; [vm_compute; reflexivity|]. split; [exact Hopen|].
  destruct (@open_wires_world Demo.collaborators "mud.example.org" 4000 0
              Demo.loaded Demo.opened 0
              (assign_w_engine 7 (Demo.unopened "w1"))
              ltac:(vm_compute; reflexivity) Hopen)
    as (_ & _ & _ & wobj' & cobj & sobj & Hw & Hc & _ & Hcl & Hsh & _).
  exists wobj', cobj. repeat split; assumption.
Defined.

Lemma open_frame_witness :
  0%nat ≠ 2%nat ∧
  world_store
    (@open Demo.collaborators "other.example.org" 4000 2 Demo.opened).2
    !! 0%nat
    = world_store Demo.opened !! 0%nat.
Proof.
  assert (0%nat ≠ 2%nat) as Hne by (intros [=]).
  split; [exact Hne|].
  exact (proj1 (@open_frame Demo.collaborators "other.example.org" 4000
                  0 2 Demo.opened Hne)).
Defined.



Lemma settings_level_precedence_witness :
  layers Demo.demo_settings Level.world !! "options.TTS.on"
    = Some (VBool false) ∧
  Settings_get Demo.demo_settings "options.TTS.on" = Ok (VBool false) ∧
  Settings_get Demo.demo_settings "options.language" = Ok (VStr "fr") ∧
  Settings_get Demo.demo_settings "options.TTS.outside" = Ok (VBool true) ∧
  Settings_get Demo.demo_settings "nonexistent.key"
    = Raise (KeyError "nonexistent.key").
Proof.
  split; [reflexivity|]. split; [|split; [|split]].
  - refine (proj1 (proj2
      (settings_level_precedence Demo.demo_settings "options.TTS.on"))
      Level.world (VBool false) eq_refl _).
    intros l'. destruct l'; simpl; intros Hlt; first [lia | reflexivity].
  - refine (proj1 (proj2
      (settings_level_precedence Demo.demo_settings "options.language"))
      Level.character (VStr "fr") eq_refl _).
    intros l'. destruct l'; simpl; intros Hlt; first [lia | reflexivity].
  - refine (proj1 (proj2 (proj2
      (settings_level_precedence Demo.demo_settings "options.TTS.outside")))
      (VBool true) _ eq_refl).
    intros l. destruct l; reflexivity.
  - refine (proj2 (proj2 (proj2
      (settings_level_precedence Demo.demo_settings "nonexistent.key")))
      _ eq_refl).
    intros l. destruct l; reflexivity.
Defined.

Lemma load_assigns_every_world_witness :
  (∀ name w, worlds (engine Demo.started_state) !! name = Some w →
             is_Some (world_store Demo.started_state !! w)) ∧
  @load Demo.collaborators Demo.started_state = (Ok (), Demo.loaded) ∧
  TTS_on (engine Demo.loaded) = Some (VBool false) ∧
  TTS_outside (engine Demo.loaded) = Some (VBool true) ∧
  ∃ wobj, world_store Demo.loaded !! 2%nat = Some wobj ∧
          w_engine wobj = Some 7%nat.
Proof.
  assert (∀ name w, worlds (engine Demo.started_state) !! name = Some w →
                    is_Some (world_store Demo.started_state !! w)) as Hlive.
  { assert (map_Forall (λ (_ : string) (w : nat), (w < 3)%nat)
              (worlds (engine Demo.started_state))) as Hall
      by (apply (bool_decide_unpack _); vm_compute; reflexivity).
    intros name w Hw. apply lookup_lt_is_Some. exact (Hall name w Hw). }
  assert (@load Demo.collaborators Demo.started_state = (Ok (), Demo.loaded))
    as Hrun by (vm_compute; reflexivity).
  split; [exact Hlive|]. split; [exact Hrun|].
  destruct (@load_assigns_every_world Demo.collaborators Demo.started_state
              Demo.loaded Hlive Hrun)
    as ((st & on & out & Hload & _ & Hon & Hton & Hout & Htout)
        & (Hid & _) & Hworlds).
  injection Hload as <-.
  injection Hon as <-. injection Hout as <-.
  split; [exact Hton|]. split; [exact Htout|].
  destruct (Hworlds "w3" 2%nat ltac:(vm_compute; reflexivity))
    as (wobj & Hw & He).
  exists wobj. split; [exact Hw|]. rewrite He, Hid. reflexivity.
Defined.

Lemma load_lookup_failure_assigns_no_world_witness :
  @Settings_load Demo.undeclared (settings (engine Demo.started_state))
    = (Ok (), settings (engine Demo.started_state)) ∧
  Settings_get (settings (engine Demo.started_state)) "options.TTS.on"
    = Raise (KeyError "options.TTS.on") ∧
  (@load Demo.undeclared Demo.started_state).1
    = Raise (KeyError "options.TTS.on") ∧
  world_store (@load Demo.undeclared Demo.started_state).2
    = world_store Demo.started_state.
Proof.
  assert (Settings_get (settings (engine Demo.started_state))
            "options.TTS.on" = Raise (KeyError "options.TTS.on")) as Hget
    by (vm_compute; reflexivity).
  split; [reflexivity|]. split; [exact Hget|].
  exact (@load_lookup_failure_assigns_no_world Demo.undeclared
           Demo.started_state (settings (engine Demo.started_state))
           (KeyError "options.TTS.on") eq_refl (or_introl Hget)).
Defined.

(** ** More on create_logger *)

Section create_logger_more.

Context `{Collaborators}.

Lemma root_test (n : string) :
  bool_decide (physical_name n = "cocomud") = py_not n.
Proof.
  unfold physical_name, py_not. destruct (decide (n = "")) as [Hn|Hn].
  - rewrite (bool_decide_eq_true_2 _ Hn). by apply bool_decide_eq_true_2.
  - rewrite (bool_decide_eq_false_2 _ Hn).
    apply bool_decide_eq_false_2, child_is_not_root.
Qed.

(** What a call does when the name is not in [self.loggers]. *)
Lemma create_logger_builds (n : string) (f : option string) (s : State) :
  loggers (engine s) !! physical_name n = None →
  create_logger n f s =
  match FileHandler_error (prepared n s) (log_file n f) with
  | Some e => (Raise e, prepared n s)
  | None => (Ok (physical_name n), built n f s)
  end.
Proof.
  intros Hc. unfold create_logger, built, prepared, known_logger.
  rewrite root_test. run. rewrite Hc.
  unfold with_manager, with_fs, with_engine, console_sink, file_sink,
    Handler_setLevel, Handler_setFormatter. simpl.
  destruct (manager s !! physical_name n) eqn:Hm; simpl;
    destruct (py_not n); simpl;
    match goal with
    | |- context [FileHandler_error ?st ?p] =>
        destruct (FileHandler_error st p)
    end; reflexivity.
Qed.

(** What a call does when the name is in [self.loggers]. *)
Lemma create_logger_hit (n : string) (f : option string) (s : State)
    (lg : string) :
  loggers (engine s) !! physical_name n = Some lg →
  create_logger n f s = (Ok lg, s).
Proof. intros Hc. unfold create_logger. run. by rewrite Hc. Qed.

Lemma prepared_lookup (n : string) (s : State) :
  manager (prepared n s) !! physical_name n =
  Some {| lg_level := DEBUG;
          lg_handlers := sinks s (physical_name n) ++
                         (if py_not n then [console_sink] else []) |}.
Proof.
  unfold prepared, known_logger, sinks. simpl.
  destruct (manager s !! physical_name n) as [L|] eqn:Hm;
    destruct (py_not n); simpl;
    rewrite ?lookup_alter_eq, ?lookup_insert_eq, ?Hm; simpl;
    by rewrite ?app_nil_r.
Qed.

Lemma prepared_lookup_ne (n : string) (s : State) (k : string) :
  k ≠ physical_name n → manager (prepared n s) !! k = manager s !! k.
Proof.
  intros Hk. unfold prepared, known_logger. simpl.
  destruct (manager s !! physical_name n) as [L|] eqn:Hm;
    destruct (py_not n); simpl;
    rewrite ?lookup_alter_ne by done; try done;
    by rewrite lookup_insert_ne.
Qed.

Lemma built_lookup (n : string) (f : option string) (s : State) :
  manager (built n f s) !! physical_name n =
  Some {| lg_level := DEBUG;
          lg_handlers := sinks s (physical_name n) ++ new_sinks n f |}.
Proof.
  unfold built, new_sinks. simpl.
  rewrite lookup_alter_eq.
  pose proof (prepared_lookup n s) as Hp. unfold prepared in Hp.
  simpl in Hp. rewrite Hp. simpl. unfold Logger_addHandler. simpl.
  by rewrite <- (assoc_L (++)).
Qed.

Lemma built_lookup_ne (n : string) (f : option string) (s : State)
    (k : string) :
  k ≠ physical_name n → manager (built n f s) !! k = manager s !! k.
Proof.
  intros Hk. unfold built. simpl. rewrite lookup_alter_ne by done.
  pose proof (prepared_lookup_ne n s k Hk) as Hp. unfold prepared in Hp.
  simpl in Hp. exact Hp.
Qed.

(** X1. A call of [create_logger] whose name is not in [self.loggers]
    and which returns does not clear the logger that the logging module
    may already have under that name: it sets its level to debug, appends
    its own handlers after those the logger carries, records the name in
    [self.loggers], and the file it opened exists. *)
Theorem create_logger_appends_to_existing (n : string) (f : option string)
    (s s' : State) (lg : string) :
  loggers (engine s) !! physical_name n = None →
  create_logger n f s = (Ok lg, s') →
  lg = physical_name n ∧
  manager s' !! lg =
    Some {| lg_level := DEBUG;
            lg_handlers := sinks s lg ++ new_sinks n f |} ∧
  loggers (engine s') = <[lg := lg]> (loggers (engine s)) ∧
  fs s' = fs s ∪ {[log_file n f]}.
Proof.
  intros Hc. rewrite (create_logger_builds n f s Hc).
  destruct (FileHandler_error _ _); intros [= <- <-].
  split; [done|]. split; [apply built_lookup|]. by split.
Qed.

(** X2. [create_logger] raises only while building a channel, when the
    file cannot be opened.  It then leaves the engine and the disk as
    they were, the name out of [self.loggers], and in the logging module
    a logger of that name at level debug which, for the root, already
    carries the console handler. *)
Theorem create_logger_failure_leaves_partial_logger (n : string)
    (f : option string) (s s' : State) (e : Exn) :
  create_logger n f s = (Raise e, s') →
  loggers (engine s) !! physical_name n = None ∧
  engine s' = engine s ∧
  fs s' = fs s ∧
  manager s' !! physical_name n =
    Some {| lg_level := DEBUG;
            lg_handlers := sinks s (physical_name n) ++
                           (if py_not n then [console_sink] else []) |}.
Proof.
  destruct (loggers (engine s) !! physical_name n) as [lg|] eqn:Hc.
  - by rewrite (create_logger_hit n f s lg Hc).
  - rewrite (create_logger_builds n f s Hc).
    destruct (FileHandler_error _ _); intros [= <- <-].
    split; [done|]. split; [done|]. split; [done|].
    apply prepared_lookup.
Qed.

(** X3. When a first [create_logger("")] on a fresh logging module
    raises, a later call that succeeds, the engine and the logging module
    being as the first call left them, attaches a second console handler:
    the root channel then carries two console sinks and one file sink. *)
Theorem create_logger_retry_duplicates_console (f f' : option string)
    (s s1 s1' s2 : State) (e : Exn) (lg : string) :
  loggers (engine s) !! "cocomud" = None →
  manager s !! "cocomud" = None →
  create_logger "" f s = (Raise e, s1) →
  engine s1' = engine s1 →
  manager s1' = manager s1 →
  create_logger "" f' s1' = (Ok lg, s2) →
  lg = "cocomud" ∧
  sinks s2 "cocomud" =
    [console_sink; console_sink;
     file_sink (os_path_join "logs" "main.log")].
Proof.
  intros Hc Hm Hfirst Heng Hman Hsecond.
  change "cocomud" with (physical_name "") in Hc.
  rewrite (create_logger_builds "" f s Hc) in Hfirst.
  destruct (FileHandler_error _ _); simplify_eq.
  assert (loggers (engine s1') !! physical_name "" = None) as Hc1
    by (rewrite Heng; exact Hc).
  rewrite (create_logger_builds "" f' s1' Hc1) in Hsecond.
  destruct (FileHandler_error _ _); simplify_eq.
  split; [done|].
  unfold sinks at 1.
  change "cocomud" with (physical_name "") at 1.
  rewrite built_lookup. simpl.
  unfold sinks. rewrite Hman, prepared_lookup. simpl.
  unfold sinks. change (physical_name "") with "cocomud". by rewrite Hm.
Qed.

(** X4. Whether it returns or raises, [create_logger(n, f)] touches no
    logger and no entry of [self.loggers] other than those of its own
    physical name; it changes no world, client or script engine, logs
    nothing, opens nothing, removes no path from the disk, and changes no
    attribute of the engine other than [loggers]. *)
Theorem create_logger_frame (n : string) (f : option string) (s : State) :
  let s' := (create_logger n f s).2 in
  (∀ k, k ≠ physical_name n →
        manager s' !! k = manager s !! k ∧
        loggers (engine s') !! k = loggers (engine s) !! k) ∧
  (world_store s' = world_store s ∧ client_store s' = client_store s ∧
   sharp_store s' = sharp_store s ∧ log_calls s' = log_calls s ∧
   started s' = started s) ∧
  (self_id (engine s') = self_id (engine s) ∧
   logger (engine s') = logger (engine s) ∧
   settings (engine s') = settings (engine s) ∧
   worlds (engine s') = worlds (engine s) ∧
   default_world (engine s') = default_world (engine s) ∧
   level (engine s') = level (engine s) ∧
   TTS_on (engine s') = TTS_on (engine s) ∧
   TTS_outside (engine s') = TTS_outside (engine s)) ∧
  fs s ⊆ fs s'.
Proof.
  destruct (loggers (engine s) !! physical_name n) as [lg|] eqn:Hc.
  - rewrite (create_logger_hit n f s lg Hc). simpl. by repeat split.
  - rewrite (create_logger_builds n f s Hc).
    destruct (FileHandler_error _ _); simpl.
    + repeat split; try done. by apply prepared_lookup_ne.
    + repeat split; try done.
      * by apply (built_lookup_ne n f s).
      * by rewrite lookup_insert_ne.
      * set_solver.
Qed.

(** [create_logger] keeps the registry sound, whether it returns or
    raises. *)
Lemma create_logger_cache_ok (n : string) (f : option string) (s : State) :
  cache_ok s → cache_ok (create_logger n f s).2.
Proof.
  intros Hok.
  destruct (loggers (engine s) !! physical_name n) as [lg|] eqn:Hc.
  { by rewrite (create_logger_hit n f s lg Hc). }
  rewrite (create_logger_builds n f s Hc).
  destruct (FileHandler_error _ _); simpl; intros k lg Hk.
  - destruct (decide (k = physical_name n)) as [->|Hne].
    { simpl in Hk. congruence. }
    destruct (Hok k lg Hk) as (-> & L & f0 & hs & HL & Hlvl & Hhs).
    split; [done|]. exists L, f0, hs.
    by rewrite (prepared_lookup_ne n s k Hne).
  - destruct (decide (k = physical_name n)) as [->|Hne].
    + simpl in Hk. rewrite lookup_insert_eq in Hk. injection Hk as <-.
      split; [done|].
      eexists _, (log_file n f),
        (sinks s (physical_name n) ++
         (if py_not n then [console_sink] else [])).
      rewrite (built_lookup n f s). split; [done|]. split; [done|].
      simpl. unfold new_sinks. by rewrite (assoc_L (++)).
    + simpl in Hk. rewrite lookup_insert_ne in Hk by done.
      destruct (Hok k lg Hk) as (-> & L & f0 & hs & HL & Hlvl & Hhs).
      split; [done|]. exists L, f0, hs.
      by rewrite (built_lookup_ne n f s k Hne).
Qed.

(** X5. On a sound registry, [create_logger(n)] returns the channel whose
    name is the physical name of [n], so two calls, each on a sound
    registry, return the same channel exactly when they are given the
    same name. *)
Theorem create_logger_same_channel_iff_same_name (n n' : string)
    (f f' : option string) (s s' t t' : State) (lg lg' : string) :
  cache_ok s →
  cache_ok t →
  create_logger n f s = (Ok lg, s') →
  create_logger n' f' t = (Ok lg', t') →
  lg = physical_name n ∧ lg' = physical_name n' ∧ (lg = lg' ↔ n = n').
Proof.
  intros Hs Ht H1 H2.
  assert (∀ m g u u' l, cache_ok u → create_logger m g u = (Ok l, u') →
                        l = physical_name m) as Hname.
  { intros m g u u' l Hu.
    destruct (loggers (engine u) !! physical_name m) as [l0|] eqn:Hc.
    - rewrite (create_logger_hit m g u l0 Hc). intros [= <- <-].
      by destruct (Hu _ _ Hc).
    - rewrite (create_logger_builds m g u Hc).
      by destruct (FileHandler_error _ _); intros [= <- <-]. }
  rewrite (Hname n f s s' lg Hs H1), (Hname n' f' t t' lg' Ht H2).
  split; [done|]. split; [done|]. split.
  - apply physical_name_inj.
  - by intros ->.
Qed.

End create_logger_more.

(** ** More on open *)

Section open_more.

Context `{Collaborators}.

(** X6. Every call of [open], whether it returns or raises, logs its
    intent once, at severity info, on the logger of the engine, before
    anything else; it adds no other record, and changes neither the
    logging module, nor the disk, nor the list of files opened. *)
Theorem open_logs_intent (host : string) (port : Z) (w : nat) (s : State) :
  let s' := (open host port w s).2 in
  log_calls s' =
    log_calls s ++
    [{| r_name := logger (engine s); r_levelno := INFO;
        r_msg := "Creating a client for " +:+ host +:+ ":" +:+
                 pretty port |}] ∧
  manager s' = manager s ∧ fs s' = fs s ∧ started s' = started s.
Proof.
  run.
  destruct (GUIClient_error _ host port w) as [e1|]; simpl; [done|].
  by destruct (SharpScript_error _ _ w) as [e2|].
Qed.

(** X7. [open] never changes the [engine] of a world, nor its name, not
    even those of the world it opens, and it neither adds nor removes a
    world: what [load] assigned survives any later [open]. *)
Theorem open_keeps_engine_backref (host : string) (port : Z) (w : nat)
    (s : State) (w' : nat) (o : World) :
  world_store s !! w' = Some o →
  let s' := (open host port w s).2 in
  length (world_store s') = length (world_store s) ∧
  ∃ o', world_store s' !! w' = Some o' ∧
        w_engine o' = w_engine o ∧ w_name o' = w_name o.
Proof.
  intros Hw'. run.
  destruct (GUIClient_error _ host port w) as [e1|]; simpl; [by eauto|].
  destruct (SharpScript_error _ _ w) as [e2|]; simpl; [by eauto|].
  split; [by rewrite !length_alter|].
  destruct (decide (w = w')) as [->|Hne].
  - rewrite !list_lookup_alter_eq, Hw'. simpl. by eauto.
  - rewrite !list_lookup_alter_ne by done. by eauto.
Qed.

(** X8. Opening a world that is already open rewires it: the second
    [open] returns a client other than the first, and the world then
    refers to the second client and to its script engine.  The first
    client is not unwired: it is still in the store, as the first [open]
    left it, and still refers to the world. *)
Theorem open_twice_rewires (host host' : string) (port port' : Z) (w : nat)
    (s s1 s2 : State) (c1 c2 : nat) (o : World) :
  world_store s !! w = Some o →
  open host port w s = (Ok c1, s1) →
  open host' port' w s1 = (Ok c2, s2) →
  c2 ≠ c1 ∧
  (∃ o2, world_store s2 !! w = Some o2 ∧
         w_client o2 = Some c2 ∧
         w_sharp_engine o2 = Some (length (sharp_store s1))) ∧
  ∃ co1, client_store s1 !! c1 = Some co1 ∧
         client_store s2 !! c1 = Some co1 ∧
         c_world co1 = w ∧
         c_sharp_engine co1 = Some (length (sharp_store s)).
Proof.
  intros Hw. run.
  destruct (GUIClient_error _ host port w) as [e1|]; simpl; [done|].
  destruct (SharpScript_error _ _ w) as [e2|]; simpl; [done|].
  intros [= <- <-]. simpl.
  destruct (GUIClient_error _ host' port' w) as [e3|]; simpl; [done|].
  destruct (SharpScript_error _ _ w) as [e4|]; simpl; [done|].
  intros [= <- <-]. simpl.
  rewrite !length_alter, !length_app. simpl.
  split; [lia|]. split.
  - rewrite !list_lookup_alter_eq, Hw. simpl. by eauto.
  - eexists. split.
    + rewrite list_lookup_alter_eq, list_lookup_middle by done. done.
    + split; [|done].
      rewrite list_lookup_alter_ne by lia.
      rewrite lookup_app_l by (rewrite length_alter, length_app; simpl; lia).
      by rewrite list_lookup_alter_eq, list_lookup_middle by done.
Qed.

(** [open] keeps every world unopened or wired. *)
Lemma open_wired_ok (host : string) (port : Z) (w : nat) (s : State) :
  wired_ok s → wired_ok (open host port w s).2.
Proof.
  intros Hok. run.
  destruct (GUIClient_error _ host port w) as [e1|]; simpl; [done|].
  destruct (SharpScript_error _ _ w) as [e2|]; simpl.
  - intros w' o Hw'. simpl in *.
    destruct (Hok w' o Hw')
      as [?|(c & sh & co & so & ? & ? & Hc & ? & ? & ? & ? & ?)];
      [by left|right].
    exists c, sh, co, so. repeat split; try done. simpl.
    rewrite lookup_app_l; [done|]. by apply lookup_lt_Some in Hc.
  - intros w' o Hw'. simpl in *.
    destruct (decide (w = w')) as [->|Hne].
    + rewrite !list_lookup_alter_eq in Hw'.
      destruct (world_store s !! w') as [o0|] eqn:Hw0; [|done].
      simpl in Hw'. injection Hw' as <-. right.
      eexists _, _, _, _. simpl.
      rewrite list_lookup_alter_eq, !list_lookup_middle by done.
      simpl. repeat split; reflexivity.
    + rewrite !list_lookup_alter_ne in Hw' by done.
      destruct (Hok w' o Hw')
        as [?|(c & sh & co & so & ? & ? & Hc & ? & ? & Hsh & ? & ?)];
        [by left|right].
      pose proof (lookup_lt_Some _ _ _ Hc).
      pose proof (lookup_lt_Some _ _ _ Hsh).
      exists c, sh, co, so. repeat split; try done.
      * rewrite list_lookup_alter_ne by lia. by rewrite lookup_app_l.
      * by rewrite lookup_app_l.
Qed.

End open_more.

(** ** More on load *)

Section load_more.

Context `{Collaborators}.

Lemma engine_assigned_length (id : nat) (ws : list nat) (st : list World) :
  length (engine_assigned id ws st) = length st.
Proof.
  unfold engine_assigned. revert st.
  induction ws as [|a ws IH]; intros st; simpl; [done|].
  by rewrite IH, length_alter.
Qed.

Lemma engine_assigned_not_elem (id : nat) (ws : list nat) (st : list World)
    (w : nat) :
  w ∉ ws → engine_assigned id ws st !! w = st !! w.
Proof.
  unfold engine_assigned. revert st.
  induction ws as [|a ws IH]; intros st Hw; simpl; [done|].
  apply not_elem_of_cons in Hw as [Hne Hw].
  rewrite IH by done. by rewrite list_lookup_alter_ne.
Qed.

Lemma engine_assigned_inv (id : nat) (ws : list nat) (st : list World)
    (w : nat) (o' : World) :
  engine_assigned id ws st !! w = Some o' →
  ∃ o, st !! w = Some o ∧ (o' = o ∨ o' = assign_w_engine id o).
Proof.
  intros Hw. destruct (st !! w) as [o|] eqn:Hst.
  - exists o. split; [done|].
    destruct (engine_assigned_lookup id ws st w o Hst) as [Hr|Hr];
      rewrite Hr in Hw; injection Hw as <-; [by left|by right].
  - apply lookup_ge_None in Hst. apply lookup_lt_Some in Hw.
    rewrite engine_assigned_length in Hw. lia.
Qed.

(** What [load] leaves, whether it returns or raises. *)
Lemma load_leaves (s : State) :
  let s' := (load s).2 in
  (manager s' = manager s ∧ fs s' = fs s ∧ started s' = started s ∧
   client_store s' = client_store s ∧ sharp_store s' = sharp_store s) ∧
  (self_id (engine s') = self_id (engine s) ∧
   loggers (engine s') = loggers (engine s) ∧
   logger (engine s') = logger (engine s) ∧
   worlds (engine s') = worlds (engine s) ∧
   default_world (engine s') = default_world (engine s) ∧
   level (engine s') = level (engine s)) ∧
  log_calls s' =
    log_calls s ++
    [{| r_name := logger (engine s); r_levelno := INFO;
        r_msg := "Loading the user's configuration..." |}] ∧
  ∃ ws, ws ⊆ values (worlds (engine s)) ∧
        world_store s' =
        engine_assigned (self_id (engine s)) ws (world_store s).
Proof.
  unfold load, settings_load, settings_getitem, info, log, lift, modify,
    get_self, mbind, M_bind, mret, M_ret. simpl.
  destruct (Settings_load (settings (engine s))) as [[[]|e] st]; simpl.
  2: { repeat split; try done. exists []. by split; [set_solver|]. }
  destruct (Settings_get st "options.TTS.on") as [on|e]; simpl.
  2: { repeat split; try done. exists []. by split; [set_solver|]. }
  destruct (Settings_get st "options.TTS.outside") as [out|e]; simpl.
  2: { repeat split; try done. exists []. by split; [set_solver|]. }
  rewrite for_each_set_world_engine. simpl.
  repeat split; try done. by eexists.
Qed.

(** X9. [load], whether it returns or raises, changes nothing of a
    world but its [engine]: its client, its script engine and its name
    are as before, and a world that is not in the world map is left
    whole.  It changes no client and no script engine, nor the logging
    module, nor the disk, and logs exactly one record, at severity
    info. *)
Theorem load_frame (s : State) (w : nat) (o : World) :
  world_store s !! w = Some o →
  let s' := (load s).2 in
  (∃ o', world_store s' !! w = Some o' ∧
         w_client o' = w_client o ∧
         w_sharp_engine o' = w_sharp_engine o ∧
         w_name o' = w_name o ∧
         (w ∉ values (worlds (engine s)) → o' = o)) ∧
  client_store s' = client_store s ∧ sharp_store s' = sharp_store s ∧
  manager s' = manager s ∧ fs s' = fs s ∧
  log_calls s' =
    log_calls s ++
    [{| r_name := logger (engine s); r_levelno := INFO;
        r_msg := "Loading the user's configuration..." |}].
Proof.
  intros Hw. pose proof (load_leaves s) as Hl. cbv zeta in Hl |- *.
  destruct Hl as ((Hm & Hfs & _ & Hc & Hsh) & _ & Hlog & ws & Hws & Hst).
  split; [|done].
  rewrite Hst.
  destruct (engine_assigned_lookup (self_id (engine s)) ws _ w o Hw)
    as [Hr|Hr]; rewrite Hr; eexists; (split; [done|]);
    repeat split; try done.
  intros Hnot.
  rewrite engine_assigned_not_elem in Hr
    by (intros Hin; apply Hnot, Hws, Hin).
  congruence.
Qed.

(** X10. When [Settings.load] raises, [load] raises the same error right
    after its log record: the settings are those [Settings.load] left,
    the two cached flags are not assigned, and no world has changed. *)
Theorem load_settings_failure (s : State) (st : Settings) (e : Exn) :
  Settings_load (settings (engine s)) = (Raise e, st) →
  (load s).1 = Raise e ∧
  settings (engine (load s).2) = st ∧
  TTS_on (engine (load s).2) = TTS_on (engine s) ∧
  TTS_outside (engine (load s).2) = TTS_outside (engine s) ∧
  world_store (load s).2 = world_store s.
Proof.
  intros Hload. unfold load, settings_load. run. by rewrite Hload.
Qed.

(** [load] keeps every world unopened or wired. *)
Lemma load_wired_ok (s : State) : wired_ok s → wired_ok (load s).2.
Proof.
  intros Hok w o' Hw.
  destruct (load_leaves s) as ((_ & _ & _ & Hc & Hsh) & _ & _ & ws & _ & Hst).
  rewrite Hst in Hw. rewrite Hc, Hsh.
  destruct (engine_assigned_inv _ _ _ _ _ Hw) as (o & Ho & [->| ->]);
    exact (Hok w o Ho).
Qed.

End load_more.

(** ** More on open_help *)

Section open_help_more.

Context `{Collaborators}.

(** X11. [open_help] does not catch what its collaborators raise.  When
    the language cannot be had, it raises at once, having logged and
    changed nothing.  When the page of the user's language exists and
    cannot be opened, it raises that error after its log record and does
    not fall back to the English page: no file is opened. *)
Theorem open_help_propagates_errors (name : string) (s : State) (e : Exn) :
  (Settings_get_language (settings (engine s)) = Raise e →
   open_help name s = (Raise e, s)) ∧
  (∀ lang,
     Settings_get_language (settings (engine s)) = Ok lang →
     help_path lang name ∈ fs s →
     let logged :=
       with_log_calls (λ l, l ++
         [{| r_name := logger (engine s); r_levelno := DEBUG;
             r_msg := "Open the help file for " +:+ name +:+
                      " (lang=" +:+ lang +:+ ")" |}]) s in
     os_startfile_error logged (help_path lang name) = Some e →
     open_help name s = (Raise e, logged) ∧
     started (open_help name s).2 = started s).
Proof.
  split.
  - intros Hlang. unfold open_help. run. by rewrite Hlang.
  - intros lang Hlang Hin logged Herr. subst logged.
    unfold help_path in *. unfold open_help. run.
    rewrite Hlang. simpl. rewrite bool_decide_eq_true_2 by done.
    simpl. by rewrite Herr.
Qed.

(** X12. [open_help] changes neither the engine, nor the logging module,
    nor the disk, nor any world, client or script engine.  It logs at
    most one record and opens at most one file, which is the page of the
    user's language or the English page. *)
Theorem open_help_frame (name : string) (s : State) :
  let s' := (open_help name s).2 in
  (engine s' = engine s ∧ manager s' = manager s ∧ fs s' = fs s ∧
   world_store s' = world_store s ∧ client_store s' = client_store s ∧
   sharp_store s' = sharp_store s) ∧
  (log_calls s' = log_calls s ∨
   ∃ msg, log_calls s' =
          log_calls s ++ [{| r_name := logger (engine s);
                             r_levelno := DEBUG; r_msg := msg |}]) ∧
  (started s' = started s ∨
   ∃ lang, Settings_get_language (settings (engine s)) = Ok lang ∧
           (started s' = started s ++ [help_path lang name] ∨
            started s' = started s ++ [help_path "en" name])).
Proof.
  unfold help_path, open_help. run.
  destruct (Settings_get_language (settings (engine s))) as [lang|e]; simpl.
  2: { repeat split; by left. }
  case_bool_decide; simpl.
  { destruct (os_startfile_error _ _); simpl;
      (split; [done|]); (split; [right; by eexists|]);
      [by left|right; exists lang; split; [done|by left]]. }
  case_bool_decide; simpl.
  { destruct (os_startfile_error _ _); simpl;
      (split; [done|]); (split; [right; by eexists|]);
      [by left|right; exists lang; split; [done|by right]]. }
  split; [done|]. split; [right; by eexists|by left].
Qed.

End open_help_more.

(** ** More on __init__, and the invariants of the engine *)

Section init_more.

Context `{Collaborators}.

Ltac unfold_init :=
  unfold init, os_path_exists, os_mkdir, info, log, modify, get_self,
    get_state, raise, mbind, M_bind, mret, M_ret; simpl.

(** X13. When the directory "logs" is missing and cannot be made,
    [__init__] raises the error of [os.mkdir] before it has asked the
    logging module for anything: no logger exists that did not, nothing
    is logged, nothing is on disk that was not. *)
Theorem init_mkdir_failure (id : nat) (s : State) (e : Exn) :
  "logs" ∉ fs s →
  os_mkdir_error (with_engine (λ _, blank id) s) "logs" = Some e →
  (init id s).1 = Raise e ∧
  manager (init id s).2 = manager s ∧
  fs (init id s).2 = fs s ∧
  log_calls (init id s).2 = log_calls s.
Proof.
  intros Hno Herr. unfold_init.
  rewrite bool_decide_eq_false_2 by done. simpl. by rewrite Herr.
Qed.

(** X14. A returning [__init__] leaves an engine whose registry holds
    the root channel alone, under the name "cocomud", which is also
    [self.logger]; whose settings are a new [Settings]; with no world, no
    default world, the level [Level.engine] and no cached flag.  The
    directory "logs" and the file of the root channel exist, the registry
    is sound, and the last thing logged is "CocoMUD engine started", at
    severity info, on the root channel. *)
Theorem init_bootstraps (id : nat) (s s' : State) :
  init id s = (Ok (), s') →
  (loggers (engine s') = {[ "cocomud" := "cocomud" ]} ∧
   logger (engine s') = "cocomud" ∧
   self_id (engine s') = id ∧
   settings (engine s') = Settings_new id ∧
   worlds (engine s') = ∅ ∧
   default_world (engine s') = None ∧
   level (engine s') = Level.engine ∧
   TTS_on (engine s') = None ∧ TTS_outside (engine s') = None) ∧
  ("logs" ∈ fs s' ∧ os_path_join "logs" "main.log" ∈ fs s') ∧
  cache_ok s' ∧
  log_calls s' =
    log_calls s ++
    [{| r_name := "cocomud"; r_levelno := INFO;
        r_msg := "CocoMUD engine started" |}].
Proof.
  unfold_init.
  set (s0 := with_engine (λ _, blank id) s).
  assert (∀ t : State, "logs" ∈ fs t → loggers (engine t) = ∅ →
    match create_logger "" None t with
    | (Ok lg, t') =>
        lg = "cocomud" ∧
        engine t' = setitem_loggers "cocomud" "cocomud" (engine t) ∧
        "logs" ∈ fs t' ∧ os_path_join "logs" "main.log" ∈ fs t' ∧
        log_calls t' = log_calls t ∧
        ∃ L hs, manager t' !! "cocomud" = Some L ∧ lg_level L = DEBUG ∧
                lg_handlers L = hs ++ [file_sink (log_file "" None)]
    | (Raise _, _) => True
    end) as Hroot.
  { intros t Hdir Hl.
    assert (loggers (engine t) !! physical_name "" = None) as Hfresh
      by (rewrite Hl; apply lookup_empty).
    rewrite (create_logger_builds "" None t Hfresh).
    destruct (FileHandler_error _ _); [done|].
    split; [done|]. split; [done|]. simpl.
    split; [set_solver|]. split; [set_solver|]. split; [done|].
    pose proof (built_lookup "" None t) as Hb. simpl in Hb.
    eexists _, (sinks t "cocomud" ++ [console_sink]).
    split; [exact Hb|]. split; [done|].
    simpl. by rewrite <- (assoc_L (++)). }
  assert (∀ t : State, "logs" ∈ fs t →
    match
      (let (r0, t') := create_logger "" None (with_engine (assign_loggers ∅) t)
       in match r0 with
          | Ok a0 =>
              (Ok (),
               with_log_calls (λ l, l ++
                 [{| r_name := a0; r_levelno := INFO;
                     r_msg := "CocoMUD engine started" |}])
                 (with_engine (assign_level Level.engine)
                    (with_engine (assign_default_world None)
                       (with_engine (assign_worlds ∅)
                          (with_engine
                             (assign_settings
                                (Settings_new (self_id (engine t'))))
                             (with_engine (assign_logger a0) t'))))))
          | Raise e0 => (Raise e0, t')
          end)
    with
    | (Ok _, t'') =>
        (loggers (engine t'') = {[ "cocomud" := "cocomud" ]} ∧
         logger (engine t'') = "cocomud" ∧
         self_id (engine t'') = self_id (engine t) ∧
         settings (engine t'') = Settings_new (self_id (engine t)) ∧
         worlds (engine t'') = ∅ ∧
         default_world (engine t'') = None ∧
         level (engine t'') = Level.engine ∧
         TTS_on (engine t'') = TTS_on (engine t) ∧
         TTS_outside (engine t'') = TTS_outside (engine t)) ∧
        ("logs" ∈ fs t'' ∧ os_path_join "logs" "main.log" ∈ fs t'') ∧
        cache_ok t'' ∧
        log_calls t'' =
          log_calls t ++
          [{| r_name := "cocomud"; r_levelno := INFO;
              r_msg := "CocoMUD engine started" |}]
    | (Raise _, _) => True
    end) as Hrest.
  { intros t Hdir.
    specialize (Hroot (with_engine (assign_loggers ∅) t) Hdir eq_refl).
    destruct (create_logger "" None (with_engine (assign_loggers ∅) t))
      as [[lg|e] t']; [|done].
    destruct Hroot as (-> & He & Hd & Hf & Hlog & L & hs & HL & Hlv & Hh).
    simpl. rewrite He, Hlog. simpl.
    split; [by repeat split|]. split; [done|]. split; [|done].
    intros k lg. simpl. rewrite He. simpl.
    intros Hk.
    apply lookup_insert_Some in Hk as [[<- <-]|[_ Hk]]; [|done].
    split; [done|]. by exists L, (log_file "" None), hs. }
  case_bool_decide as Hdir; simpl.
  - specialize (Hrest s0 Hdir).
    destruct (create_logger "" None (with_engine (assign_loggers ∅) s0))
      as [[lg|e] t']; [|done].
    intros [= <-]. exact Hrest.
  - destruct (os_mkdir_error s0 "logs") as [e|]; simpl; [done|].
    specialize (Hrest (with_fs (λ paths, paths ∪ {["logs"]}) s0)
                  ltac:(simpl; set_solver)).
    destruct (create_logger "" None _) as [[lg|e] t']; [|done].
    intros [= <-]. exact Hrest.
Qed.

Lemma create_logger_stores (n : string) (f : option string) (s : State) :
  world_store (create_logger n f s).2 = world_store s ∧
  client_store (create_logger n f s).2 = client_store s ∧
  sharp_store (create_logger n f s).2 = sharp_store s.
Proof.
  destruct (loggers (engine s) !! physical_name n) as [lg|] eqn:Hc.
  - by rewrite (create_logger_hit n f s lg Hc).
  - rewrite (create_logger_builds n f s Hc).
    by destruct (FileHandler_error _ _).
Qed.

Lemma open_help_leaves (name : string) (s : State) :
  engine (open_help name s).2 = engine s ∧
  manager (open_help name s).2 = manager s ∧
  world_store (open_help name s).2 = world_store s ∧
  client_store (open_help name s).2 = client_store s ∧
  sharp_store (open_help name s).2 = sharp_store s.
Proof.
  unfold open_help. run.
  destruct (Settings_get_language (settings (engine s))); simpl; [|done].
  case_bool_decide; simpl; [by destruct (os_startfile_error _ _)|].
  case_bool_decide; simpl; [by destruct (os_startfile_error _ _)|done].
Qed.

Lemma open_leaves_registry (host : string) (port : Z) (w : nat) (s : State) :
  engine (open host port w s).2 = engine s ∧
  manager (open host port w s).2 = manager s.
Proof.
  run. destruct (GUIClient_error _ host port w); simpl; [done|].
  by destruct (SharpScript_error _ _ w).
Qed.

Lemma cache_ok_same (s s' : State) :
  loggers (engine s') = loggers (engine s) → manager s' = manager s →
  cache_ok s → cache_ok s'.
Proof. intros Hl Hm Hok k lg. rewrite Hl, Hm. apply Hok. Qed.

Lemma wired_ok_same (s s' : State) :
  world_store s' = world_store s → client_store s' = client_store s →
  sharp_store s' = sharp_store s → wired_ok s → wired_ok s'.
Proof. intros Hw Hc Hs Hok w o. rewrite Hw, Hc, Hs. apply Hok. Qed.

(** X15. The soundness of the registry is an invariant of the engine:
    whatever sequence of calls of [create_logger], [load], [open] and
    [open_help] follows, returning or raising, every name of
    [self.loggers] stays bound to the logger of that name, at level
    debug, with a file handler last. *)
Theorem registry_invariant (cs : list Call) (s : State) :
  cache_ok s → cache_ok (after_all cs s).
Proof.
  unfold after_all. revert s.
  induction cs as [|c cs IH]; intros s Hok; simpl; [done|].
  apply IH. destruct c as [n f| |host port w|name]; simpl.
  - by apply create_logger_cache_ok.
  - pose proof (load_leaves s) as Hl. cbv zeta in Hl.
    destruct Hl as ((Hm & _) & (_ & Hlg & _) & _).
    by apply (cache_ok_same s).
  - destruct (open_leaves_registry host port w s) as (He & Hm).
    apply (cache_ok_same s); [by rewrite He|done..].
  - destruct (open_help_leaves name s) as (He & Hm & _).
    apply (cache_ok_same s); [by rewrite He|done..].
Qed.

(** X16. The wiring of the worlds is an invariant of the engine: if every
    world is unopened or has a client and a script engine that refer to
    each other and to it, this still holds after any sequence of calls of
    [create_logger], [load], [open] and [open_help], returning or
    raising. *)
Theorem wiring_invariant (cs : list Call) (s : State) :
  wired_ok s → wired_ok (after_all cs s).
Proof.
  unfold after_all. revert s.
  induction cs as [|c cs IH]; intros s Hok; simpl; [done|].
  apply IH. destruct c as [n f| |host port w|name]; simpl.
  - destruct (create_logger_stores n f s) as (Hw & Hc & Hs).
    by apply (wired_ok_same s).
  - by apply load_wired_ok.
  - by apply open_wired_ok.
  - destruct (open_help_leaves name s) as (_ & _ & Hw & Hc & Hs).
    by apply (wired_ok_same s).
Qed.

End init_more.

(** ** The updater window *)

Import updater.

Section updater_facts.





(** X18. A [DummyUpdater] ignores every event: whatever events it
    processes, of whatever type and value, it is afterwards as
    [__init__] left it. *)
Theorem dummy_updater_ignores_events (answer : Answer) (es : list Event) :
  process_all answer es (DummyUpdater_init DummyUpdater)
  = (Ok (), DummyUpdater_init DummyUpdater).
Proof.
  induction es as [|e es IH]; simpl; [done|].
  unfold ProcessEvent. simpl.
  by destruct (e_type e); simpl.
Qed.


(** No handler of either class touches the attributes that [__init__]
    and [create_updater] set, the bindings or the class of the frame,
    whether it returns or raises. *)
Lemma method_keeps (c : Class) (m : Method) (answer : Answer) (e : Event)
    (f : Frame) :
  let f' := (method c m answer e f).2 in
  progress f' = progress f ∧ autoupdater f' = autoupdater f ∧
  autoupdate f' = autoupdate f ∧ bound f' = bound f ∧ cls f' = cls f.
Proof.
  destruct c, m; simpl; try done.
  - unfold Updater_OnGauge.
    destruct (widgets f) as [w|]; simpl;
      [by destruct (default_text f)|done].
  - unfold Updater_OnText. simpl. by destruct (widgets f) as [w|].
  - by destruct answer.
Qed.

(** What one action keeps, and what it adds to the bindings. *)
Lemma act_keeps (BUILD : Z) (a : Action) (f : Frame) :
  let f' := act BUILD a f in
  progress f' = progress f ∧ autoupdater f' = autoupdater f ∧
  ((∃ u, autoupdate f = Some u ∧ au_build u = BUILD ∧
         au_started u = true) →
   ∃ u, autoupdate f' = Some u ∧ au_build u = BUILD ∧
        au_started u = true) ∧
  bound f' =
    bound f ++ replicate (InitUI_calls [a]) (wx_EVT_BUTTON, OnCancel) ∧
  cls f' = cls f.
Proof.
  destruct a as [jc|v|v|  |v|  |m answer e|  |answer]; simpl;
    rewrite ?app_nil_r; try done.
  - repeat split; try done. intros _. by eexists.
  - destruct (method_keeps (cls f) m answer e f) as (-> & -> & -> & -> & ->).
    done.
  - destruct (pending f) as [|e es]; simpl; rewrite ?app_nil_r; [done|].
    unfold ProcessEvent. simpl.
    destruct (handler_of (e_type e) (bound f)) as [m|]; simpl; [|done].
    destruct (method_keeps (cls f) m answer e (set_pending es f))
      as (-> & -> & -> & -> & ->).
    done.
Qed.

(** The same of a run of actions. *)
Lemma act_all_keeps (BUILD : Z) (acts : list Action) (f : Frame) :
  let f' := act_all BUILD acts f in
  progress f' = progress f ∧ autoupdater f' = autoupdater f ∧
  ((∃ u, autoupdate f = Some u ∧ au_build u = BUILD ∧
         au_started u = true) →
   ∃ u, autoupdate f' = Some u ∧ au_build u = BUILD ∧
        au_started u = true) ∧
  bound f' =
    bound f ++ replicate (InitUI_calls acts) (wx_EVT_BUTTON, OnCancel) ∧
  cls f' = cls f.
Proof.
  unfold act_all. revert f.
  induction acts as [|a acts IH]; intros f; simpl.
  - by rewrite app_nil_r.
  - destruct (IH (act BUILD a f)) as (Hp & Ha & Hu & Hb & Hc).
    destruct (act_keeps BUILD a f) as (Hp' & Ha' & Hu' & Hb' & Hc').
    rewrite Hp, Ha, Hb, Hc, Hp', Ha', Hb', Hc'.
    repeat split; try done.
    + intros Hf. by apply Hu, Hu'.
    + rewrite <- (assoc_L (++)). f_equal. by destruct a.
Qed.

(** X20. No method of updater.py assigns [self.progress] or
    [self.autoupdater] once [__init__] has: whatever methods of an
    [Updater] are called after [__init__], [InitUI] and the handlers
    among them, with whatever arguments and in whatever order, whatever
    the user clicks and answers and whatever events are processed,
    whether the handlers return or raise, [progress] stays 0 and
    [autoupdater] stays None, the [AutoUpdate] that [create_updater]
    makes being kept in [autoupdate], of the build of the program and
    started.  The class does not change.  The bindings are those of
    [__init__], followed by one more binding of the click to [OnCancel]
    for each call of [InitUI]; so the handler that each type of event
    goes to does not change. *)
Theorem updater_never_assigns (BUILD : Z) (just_checking : bool)
    (acts : list Action) :
  let f := act_all BUILD acts (Updater_init BUILD just_checking) in
  let initial := bound (Updater_init BUILD just_checking) in
  progress f = 0 ∧
  autoupdater f = None ∧
  (∃ a, autoupdate f = Some a ∧ au_build a = BUILD ∧ au_started a = true) ∧
  bound f =
    initial ++ replicate (InitUI_calls acts) (wx_EVT_BUTTON, OnCancel) ∧
  (∀ t, handler_of t (bound f) = handler_of t initial) ∧
  cls f = Updater.
Proof.
  destruct (act_all_keeps BUILD acts (Updater_init BUILD just_checking))
    as (Hp & Ha & Hu & Hb & Hc).
  simpl. rewrite Hp, Ha, Hb, Hc.
  repeat split; try done.
  - apply Hu. by eexists.
  - intros t. by destruct t.
Qed.

End updater_facts.

(** ** The further properties on concrete engines and windows *)

Lemma create_logger_appends_to_existing_witness :
  loggers (engine Faults.dir_made) !! physical_name "" = None ∧
  sinks Faults.dir_made "cocomud" = [console_sink] ∧
  manager (@create_logger Faults.needs_dir "" None Faults.dir_made).2
    !! "cocomud"
    = Some {| lg_level := DEBUG;
              lg_handlers :=
                [console_sink; console_sink; file_sink "logs/main.log"] |}.
Proof.
  assert (loggers (engine Faults.dir_made) !! physical_name "" = None)
    as Hc by (vm_compute; reflexivity).
  split; [exact Hc|]. split; [vm_compute; reflexivity|].
  destruct (@create_logger_appends_to_existing Faults.needs_dir "" None
              Faults.dir_made
              (@create_logger Faults.needs_dir "" None Faults.dir_made).2
              "cocomud" Hc ltac:(vm_compute; reflexivity))
    as (_ & Hm & _).
  exact Hm.
Defined.

Lemma create_logger_failure_leaves_partial_logger_witness :
  @create_logger Faults.needs_dir "" None Demo.unstarted
    = (Raise (OSError "logs/main.log"), Faults.failed_once) ∧
  engine Faults.failed_once = engine Demo.unstarted ∧
  manager Faults.failed_once !! "cocomud"
    = Some {| lg_level := DEBUG; lg_handlers := [console_sink] |}.
Proof.
  assert (@create_logger Faults.needs_dir "" None Demo.unstarted
            = (Raise (OSError "logs/main.log"), Faults.failed_once))
    as Hrun by (vm_compute; reflexivity).
  split; [exact Hrun|].
  destruct (@create_logger_failure_leaves_partial_logger Faults.needs_dir
              "" None Demo.unstarted Faults.failed_once
              (OSError "logs/main.log") Hrun)
    as (_ & He & _ & Hm).
  split; [exact He|exact Hm].
Defined.

Lemma create_logger_retry_duplicates_console_witness :
  @create_logger Faults.needs_dir "" None Demo.unstarted
    = (Raise (OSError "logs/main.log"), Faults.failed_once) ∧
  engine Faults.dir_made = engine Faults.failed_once ∧
  manager Faults.dir_made = manager Faults.failed_once ∧
  sinks (@create_logger Faults.needs_dir "" None Faults.dir_made).2 "cocomud"
    = [console_sink; console_sink; file_sink "logs/main.log"].
Proof.
  assert (@create_logger Faults.needs_dir "" None Demo.unstarted
            = (Raise (OSError "logs/main.log"), Faults.failed_once))
    as Hfirst by (vm_compute; reflexivity).
  split; [exact Hfirst|]. split; [reflexivity|]. split; [reflexivity|].
  exact (proj2
    (@create_logger_retry_duplicates_console Faults.needs_dir None None
       Demo.unstarted Faults.failed_once Faults.dir_made
       (@create_logger Faults.needs_dir "" None Faults.dir_made).2
       (OSError "logs/main.log") "cocomud"
       eq_refl eq_refl Hfirst eq_refl eq_refl
       ltac:(vm_compute; reflexivity))).
Defined.

Lemma create_logger_frame_witness :
  "cocomud" ≠ physical_name "sharp" ∧
  manager (@create_logger Demo.collaborators "sharp" None
             Demo.started_state).2 !! "cocomud"
    = manager Demo.started_state !! "cocomud".
Proof.
  assert ("cocomud" ≠ physical_name "sharp") as Hne by (intros [=]).
  split; [exact Hne|].
  exact (proj1 (proj1
    (@create_logger_frame Demo.collaborators "sharp" None
       Demo.started_state) "cocomud" Hne)).
Defined.

Lemma create_logger_same_channel_iff_same_name_witness :
  cache_ok Faults.rooted ∧
  @create_logger Demo.collaborators "" None Faults.rooted
    = (Ok "cocomud", Faults.rooted) ∧
  ("cocomud" = "cocomud.sharp" ↔ "" = "sharp").
Proof.
  assert (cache_ok Demo.unstarted) as Hempty.
  { intros k lg Hk. vm_compute in Hk. discriminate Hk. }
  assert (cache_ok Faults.rooted) as Hok
    by exact (@create_logger_cache_ok Demo.collaborators "" None
                Demo.unstarted Hempty).
  assert (@create_logger Demo.collaborators "" None Faults.rooted
            = (Ok "cocomud", Faults.rooted)) as H1
    by (vm_compute; reflexivity).
  split; [exact Hok|]. split; [exact H1|].
  exact (proj2 (proj2
    (@create_logger_same_channel_iff_same_name Demo.collaborators
       "" "sharp" None None Faults.rooted Faults.rooted Faults.rooted
       (@create_logger Demo.collaborators "sharp" None Faults.rooted).2
       "cocomud" "cocomud.sharp" Hok Hok H1
       ltac:(vm_compute; reflexivity)))).
Defined.

Lemma open_keeps_engine_backref_witness :
  world_store Demo.loaded !! 0%nat
    = Some (assign_w_engine 7 (Demo.unopened "w1")) ∧
  ∃ o', world_store Demo.opened !! 0%nat = Some o' ∧
        w_engine o' = Some 7%nat ∧ w_name o' = "w1".
Proof.
  assert (world_store Demo.loaded !! 0%nat
            = Some (assign_w_engine 7 (Demo.unopened "w1"))) as Hw
    by (vm_compute; reflexivity).
  split; [exact Hw|].
  exact (proj2
    (@open_keeps_engine_backref Demo.collaborators "mud.example.org" 4000
       0 Demo.loaded 0 (assign_w_engine 7 (Demo.unopened "w1")) Hw)).
Defined.

Lemma open_twice_rewires_witness :
  @open Demo.collaborators "mud.example.org" 4000 0 Demo.loaded
    = (Ok 0%nat, Demo.opened) ∧
  (@open Demo.collaborators "other.example.org" 4001 0 Demo.opened).1
    = Ok 1%nat ∧
  1%nat ≠ 0%nat ∧
  ∃ co1,
    client_store Demo.opened !! 0%nat = Some co1 ∧
    client_store
      (@open Demo.collaborators "other.example.org" 4001 0 Demo.opened).2
      !! 0%nat = Some co1 ∧
    c_world co1 = 0%nat.
Proof.
  assert (@open Demo.collaborators "mud.example.org" 4000 0 Demo.loaded
            = (Ok 0%nat, Demo.opened)) as H1 by (vm_compute; reflexivity).
  split; [exact H1|]. split; [vm_compute; reflexivity|].
  destruct (@open_twice_rewires Demo.collaborators "mud.example.org"
              "other.example.org" 4000 4001 0 Demo.loaded Demo.opened
              (@open Demo.collaborators "other.example.org" 4001 0
                 Demo.opened).2
              0 1 (assign_w_engine 7 (Demo.unopened "w1"))
              ltac:(vm_compute; reflexivity) H1
              ltac:(vm_compute; reflexivity))
    as (Hne & _ & co1 & Ha & Hb & Hc & _).
  split; [exact Hne|]. exists co1. split; [exact Ha|]. split; assumption.
Defined.

Lemma load_frame_witness :
  world_store Demo.opened !! 0%nat
    = Some {| w_name := "w1"; w_engine := Some 7%nat;
              w_client := Some 0%nat; w_sharp_engine := Some 0%nat |} ∧
  ∃ o', world_store (@load Demo.collaborators Demo.opened).2 !! 0%nat
          = Some o' ∧
        w_client o' = Some 0%nat ∧ w_sharp_engine o' = Some 0%nat.
Proof.
  assert (world_store Demo.opened !! 0%nat
    = Some {| w_name := "w1"; w_engine := Some 7%nat;
              w_client := Some 0%nat; w_sharp_engine := Some 0%nat |})
    as Hw by (vm_compute; reflexivity).
  split; [exact Hw|].
  destruct (proj1 (@load_frame Demo.collaborators Demo.opened 0 _ Hw))
    as (o' & Ho & Hc & Hs & _).
  exists o'. split; [exact Ho|]. split; assumption.
Defined.

Lemma load_settings_failure_witness :
  @Settings_load Faults.unreadable (settings (engine Demo.started_state))
    = (Raise (OSError "settings"), settings (engine Demo.started_state)) ∧
  (@load Faults.unreadable Demo.started_state).1
    = Raise (OSError "settings") ∧
  world_store (@load Faults.unreadable Demo.started_state).2
    = world_store Demo.started_state.
Proof.
  split; [reflexivity|].
  destruct (@load_settings_failure Faults.unreadable Demo.started_state
              (settings (engine Demo.started_state))
              (OSError "settings") eq_refl)
    as (Hr & _ & _ & _ & Hw).
  split; [exact Hr|exact Hw].
Defined.

Lemma open_help_propagates_errors_witness :
  @Settings_get_language Faults.unreadable
    (settings (engine Demo.started_state))
    = Raise (KeyError "options.language") ∧
  @open_help Faults.unreadable "macros" Demo.started_state
    = (Raise (KeyError "options.language"), Demo.started_state) ∧
  (@help_path Faults.unreadable "fr" "macros") ∈ fs Faults.with_french ∧
  (@open_help Faults.unreadable "macros" Faults.with_french).1
    = Raise (OSError "doc/fr/macros.html") ∧
  started (@open_help Faults.unreadable "macros" Faults.with_french).2
    = started Faults.with_french.
Proof.
  assert (@Settings_get_language Faults.unreadable
            (settings (engine Demo.started_state))
            = Raise (KeyError "options.language")) as Hlang
    by (vm_compute; reflexivity).
  assert ((@help_path Faults.unreadable "fr" "macros")
            ∈ fs Faults.with_french) as Hin
    by (apply (bool_decide_unpack _); vm_compute; reflexivity).
  split; [exact Hlang|]. split.
  { exact (proj1 (@open_help_propagates_errors Faults.unreadable "macros"
                    Demo.started_state (KeyError "options.language"))
             Hlang). }
  split; [exact Hin|].
  destruct (proj2 (@open_help_propagates_errors Faults.unreadable "macros"
                     Faults.with_french (OSError "doc/fr/macros.html"))
              "fr" ltac:(vm_compute; reflexivity) Hin
              ltac:(vm_compute; reflexivity))
    as (Hr & Hs).
  split; [by rewrite Hr|exact Hs].
Defined.

Lemma init_mkdir_failure_witness :
  ("logs" ∉ fs Demo.boot) ∧
  (@init Faults.needs_dir 7 Demo.boot).1 = Raise (OSError "logs") ∧
  manager (@init Faults.needs_dir 7 Demo.boot).2 = manager Demo.boot ∧
  log_calls (@init Faults.needs_dir 7 Demo.boot).2 = log_calls Demo.boot.
Proof.
  assert ("logs" ∉ fs Demo.boot) as Hno
    by (apply (bool_decide_unpack _); vm_compute; reflexivity).
  split; [exact Hno|].
  destruct (@init_mkdir_failure Faults.needs_dir 7 Demo.boot
              (OSError "logs") Hno eq_refl)
    as (Hr & Hm & _ & Hl).
  split; [exact Hr|]. split; [exact Hm|exact Hl].
Defined.

Lemma init_bootstraps_witness :
  @init Demo.collaborators 7 Demo.boot
    = (Ok (), (@init Demo.collaborators 7 Demo.boot).2) ∧
  loggers (engine (@init Demo.collaborators 7 Demo.boot).2)
    = {[ "cocomud" := "cocomud" ]} ∧
  level (engine (@init Demo.collaborators 7 Demo.boot).2) = Level.engine ∧
  cache_ok (@init Demo.collaborators 7 Demo.boot).2.
Proof.
  assert (@init Demo.collaborators 7 Demo.boot
            = (Ok (), (@init Demo.collaborators 7 Demo.boot).2)) as Hrun
    by (vm_compute; reflexivity).
  split; [exact Hrun|].
  destruct (@init_bootstraps Demo.collaborators 7 Demo.boot _ Hrun)
    as ((Hl & _ & _ & _ & _ & _ & Hlv & _) & _ & Hok & _).
  split; [exact Hl|]. split; [exact Hlv|exact Hok].
Defined.

Lemma registry_invariant_witness :
  cache_ok Faults.rooted ∧
  cache_ok
    (@after_all Demo.collaborators
       [Load; Open "mud.example.org" 4000 0; CreateLogger "sharp" None;
        OpenHelp "macros"; Open "host" 4000 1]
       Faults.rooted).
Proof.
  assert (cache_ok Demo.unstarted) as Hempty.
  { intros k lg Hk. vm_compute in Hk. discriminate Hk. }
  assert (cache_ok Faults.rooted) as Hok
    by exact (@create_logger_cache_ok Demo.collaborators "" None
                Demo.unstarted Hempty).
  split; [exact Hok|].
  exact (@registry_invariant Demo.collaborators _ Faults.rooted Hok).
Defined.

Lemma wiring_invariant_witness :
  wired_ok Demo.started_state ∧
  wired_ok
    (@after_all Demo.collaborators
       [Load; Open "mud.example.org" 4000 0; CreateLogger "sharp" None;
        Open "other.example.org" 4001 0; Open "host" 4000 1; Load]
       Demo.started_state).
Proof.
  assert (wired_ok Demo.started_state) as Hok.
  { intros w o Hw. left.
    destruct w as [|[|[|w]]]; vm_compute in Hw;
      [injection Hw as <-; by split ..|discriminate Hw]. }
  split; [exact Hok|].
  exact (@wiring_invariant Demo.collaborators _ Demo.started_state Hok).
Defined.

